(** * Booking lifecycle and slot availability of the Zennara backend

    A shallow embedding of [src/models/Booking.js] and of the booking routes
    of [src/routes/bookings.js], followed by the properties of the booking
    lifecycle and of the availability computation.

    Conventions.
    - A JavaScript [Date] is its time value: milliseconds since the epoch, in
      [Z].  The server's local time zone is a fixed offset [tz] (milliseconds
      east of UTC, [19800000] for Asia/Kolkata); daylight saving is not
      modelled.
    - [new Date()] is an input of every handler ([now]); a handler that reads
      the clock twice receives both readings.
    - [Math.random()] is an input: a rational [r] with [0 <= r < 1].  The
      arithmetic applied to it is exact.
    - MongoDB ObjectIds are strings; the booking collection is a finite map
      from ids to documents. *)

From Stdlib Require Import ZArith QArith Qround Lia Ascii String.
From stdpp Require Import gmap strings list fin_maps.

Local Open Scope string_scope.
Local Open Scope Z_scope.

(** ** JavaScript runtime functions used by the source *)

Module JS.

(** The character of one decimal digit. *)
Definition digitChar (d : Z) : ascii := ascii_of_nat (48 + Z.to_nat d).

(** Decimal digits of a non-negative integer, most significant first.
    [fuel] bounds the number of digits produced. *)
Fixpoint digitsOf (fuel : nat) (n : Z) (acc : string) : string :=
  match fuel with
  | O => acc
  | S k =>
      let acc' := String (digitChar (n mod 10)) acc in
      if n <? 10 then acc' else digitsOf k (n / 10) acc'
  end.

(** [Number.prototype.toString()] on an integer.  A number below [2^n] has
    at most [n] decimal digits, which gives the fuel. *)
Definition toString (n : Z) : string :=
  if n <? 0
  then String "-" (digitsOf (S (Z.to_nat (Z.log2 (- n)))) (- n) EmptyString)
  else digitsOf (S (Z.to_nat (Z.log2 n))) n EmptyString.

Fixpoint repeatChar (k : nat) (c : ascii) : string :=
  match k with
  | O => EmptyString
  | S k' => String c (repeatChar k' c)
  end.

(** [String.prototype.padStart(targetLength, c)] with a one-character pad. *)
Definition padStart (s : string) (targetLength : nat) (c : ascii) : string :=
  repeatChar (targetLength - String.length s) c +:+ s.

(** [Math.floor] and [Math.ceil] on exact rationals. *)
Definition floor (q : Q) : Z := Qfloor q.
Definition ceil (q : Q) : Z := Qceiling q.

(** [Math.floor(lo + Math.random() * span)] *)
Definition randomInt (lo span : Z) (r : Q) : Z :=
  floor (inject_Z lo + r * inject_Z span)%Q.

End JS.

(** ** Clock and calendar-day arithmetic *)

Module Clock.

Definition msPerMinute : Z := 60 * 1000.
Definition msPerHour : Z := 60 * msPerMinute.
Definition msPerDay : Z := 24 * msPerHour.

(** Milliseconds elapsed since local midnight. *)
Definition msOfLocalDay (tz t : Z) : Z := (t + tz) mod msPerDay.

(** Number of the local calendar day ([toDateString] compares these). *)
Definition localDay (tz t : Z) : Z := (t + tz) / msPerDay.

(** [d.setHours(0, 0, 0, 0)] *)
Definition startOfLocalDay (tz t : Z) : Z := t - msOfLocalDay tz t.

(** [d.setHours(23, 59, 59, 999)] *)
Definition endOfLocalDay (tz t : Z) : Z := startOfLocalDay tz t + (msPerDay - 1).

(** [d.getHours()] *)
Definition getHours (tz t : Z) : Z := msOfLocalDay tz t / msPerHour.

(** [d.toISOString().split('T')[0]]: the UTC calendar day, as a day number
    (the text form of a date determines its day number and conversely). *)
Definition utcDay (t : Z) : Z := t / msPerDay.

End Clock.


(** ** Data model ([src/models/Booking.js], [bookingSchema]) *)

(** [status].  The schema's enum has no ['pending'], but the routes accept
    and query it, so the type has it and [validate] below rejects it. *)
Inductive Status :=
  | Pending | Confirmed | InProgress | Completed | Cancelled | Rescheduled | NoShow.

Inductive Location := JubileeHills | Kokapet | Kondapur.
Inductive PaymentStatus := PaymentPending | Paid | Partial | Failed | Refunded.
Inductive PaymentMethod := Cash | Card | Upi | Wallet.
Inductive ReminderType := Sms | Email | Push.
Inductive ReminderStatus := Sent | Delivered | DeliveryFailed.

#[global] Instance Status_eq_dec : EqDecision Status.
Proof. solve_decision. Defined.
#[global] Instance Location_eq_dec : EqDecision Location.
Proof. solve_decision. Defined.
#[global] Instance PaymentStatus_eq_dec : EqDecision PaymentStatus.
Proof. solve_decision. Defined.

Definition statusName (s : Status) : string :=
  match s with
  | Pending => "pending"
  | Confirmed => "confirmed"
  | InProgress => "in-progress"
  | Completed => "completed"
  | Cancelled => "cancelled"
  | Rescheduled => "rescheduled"
  | NoShow => "no-show"
  end.

Record PersonalDetails := mkPersonalDetails {
  fullName : string;
  mobileNumber : string;
  email : string
}.

Record TreatmentDetails := mkTreatmentDetails {
  name : string;
  category : string;
  price : Z;
  priceDisplay : string;
  duration : Z;
  durationDisplay : string
}.

Record Attachment := mkAttachment {
  filename : string;
  originalName : string;
  mimetype : string;
  size : Z;
  uploadedAt : Z;
  uploadedBy : string
}.

Record Medication := mkMedication {
  medName : string;
  dosage : string;
  frequency : string;
  medDuration : string
}.

Record Prescription := mkPrescription {
  attachments : list Attachment;
  prescriptionNotes : option string;
  medications : list Medication
}.

Record Reminder := mkReminder {
  reminderType : ReminderType;
  sentAt : Z;
  reminderStatus : ReminderStatus
}.

(** One document of the booking collection, with the paths the schema
    declares.  [None] is JavaScript's [undefined] for a path that was never
    set or was cleared.  The bookkeeping that Mongoose adds by itself ([_id],
    [__v], [createdAt], [updatedAt]) is not part of the record; the id is the
    key of the collection. *)
Record Booking := mkBooking {
  user : string;
  personalDetails : PersonalDetails;
  treatment : string;
  treatmentDetails : TreatmentDetails;
  location : Location;
  appointmentDate : Z;
  appointmentTime : string;
  status : Status;
  paymentStatus : PaymentStatus;
  paymentMethod : PaymentMethod;
  totalAmount : Z;
  paymentUpdatedAt : option Z;
  fullyProcessed : bool;
  specialRequests : option string;
  notes : option string;
  bookingReference : string;
  cancellationReason : option string;
  cancelledAt : option Z;
  rescheduledFrom : option (Z * string);
  rescheduledAt : option Z;
  rescheduleCount : Z;
  noShowMarkedAt : option Z;
  rating : option Z;
  ratingComment : option string;
  feedback : option string;
  feedbackDate : option Z;
  assignedStaff : option string;
  checkedIn : bool;
  checkInTime : option Z;
  checkoutOTP : option string;
  checkedOut : bool;
  checkOutTime : option Z;
  adminCheckout : option string;
  canCheckOut : bool;
  checkOutEligibleTime : option Z;
  prescription : Prescription;
  remindersSent : list Reminder
}.

(** Field updates ([this.f = v]). *)

Definition set_appointmentDate (v : Z) (b : Booking) : Booking :=
  {| user := user b; personalDetails := personalDetails b; treatment := treatment b;
     treatmentDetails := treatmentDetails b; location := location b; appointmentDate := v;
     appointmentTime := appointmentTime b; status := status b; paymentStatus := paymentStatus b;
     paymentMethod := paymentMethod b; totalAmount := totalAmount b; paymentUpdatedAt := paymentUpdatedAt b;
     fullyProcessed := fullyProcessed b; specialRequests := specialRequests b; notes := notes b;
     bookingReference := bookingReference b; cancellationReason := cancellationReason b;
     cancelledAt := cancelledAt b; rescheduledFrom := rescheduledFrom b; rescheduledAt := rescheduledAt b;
     rescheduleCount := rescheduleCount b; noShowMarkedAt := noShowMarkedAt b; rating := rating b;
     ratingComment := ratingComment b; feedback := feedback b; feedbackDate := feedbackDate b;
     assignedStaff := assignedStaff b; checkedIn := checkedIn b; checkInTime := checkInTime b;
     checkoutOTP := checkoutOTP b; checkedOut := checkedOut b; checkOutTime := checkOutTime b;
     adminCheckout := adminCheckout b; canCheckOut := canCheckOut b;
     checkOutEligibleTime := checkOutEligibleTime b; prescription := prescription b;
     remindersSent := remindersSent b |}.

Definition set_appointmentTime (v : string) (b : Booking) : Booking :=
  {| user := user b; personalDetails := personalDetails b; treatment := treatment b;
     treatmentDetails := treatmentDetails b; location := location b; appointmentDate := appointmentDate b;
     appointmentTime := v; status := status b; paymentStatus := paymentStatus b;
     paymentMethod := paymentMethod b; totalAmount := totalAmount b; paymentUpdatedAt := paymentUpdatedAt b;
     fullyProcessed := fullyProcessed b; specialRequests := specialRequests b; notes := notes b;
     bookingReference := bookingReference b; cancellationReason := cancellationReason b;
     cancelledAt := cancelledAt b; rescheduledFrom := rescheduledFrom b; rescheduledAt := rescheduledAt b;
     rescheduleCount := rescheduleCount b; noShowMarkedAt := noShowMarkedAt b; rating := rating b;
     ratingComment := ratingComment b; feedback := feedback b; feedbackDate := feedbackDate b;
     assignedStaff := assignedStaff b; checkedIn := checkedIn b; checkInTime := checkInTime b;
     checkoutOTP := checkoutOTP b; checkedOut := checkedOut b; checkOutTime := checkOutTime b;
     adminCheckout := adminCheckout b; canCheckOut := canCheckOut b;
     checkOutEligibleTime := checkOutEligibleTime b; prescription := prescription b;
     remindersSent := remindersSent b |}.

Definition set_status (v : Status) (b : Booking) : Booking :=
  {| user := user b; personalDetails := personalDetails b; treatment := treatment b;
     treatmentDetails := treatmentDetails b; location := location b; appointmentDate := appointmentDate b;
     appointmentTime := appointmentTime b; status := v; paymentStatus := paymentStatus b;
     paymentMethod := paymentMethod b; totalAmount := totalAmount b; paymentUpdatedAt := paymentUpdatedAt b;
     fullyProcessed := fullyProcessed b; specialRequests := specialRequests b; notes := notes b;
     bookingReference := bookingReference b; cancellationReason := cancellationReason b;
     cancelledAt := cancelledAt b; rescheduledFrom := rescheduledFrom b; rescheduledAt := rescheduledAt b;
     rescheduleCount := rescheduleCount b; noShowMarkedAt := noShowMarkedAt b; rating := rating b;
     ratingComment := ratingComment b; feedback := feedback b; feedbackDate := feedbackDate b;
     assignedStaff := assignedStaff b; checkedIn := checkedIn b; checkInTime := checkInTime b;
     checkoutOTP := checkoutOTP b; checkedOut := checkedOut b; checkOutTime := checkOutTime b;
     adminCheckout := adminCheckout b; canCheckOut := canCheckOut b;
     checkOutEligibleTime := checkOutEligibleTime b; prescription := prescription b;
     remindersSent := remindersSent b |}.

Definition set_paymentStatus (v : PaymentStatus) (b : Booking) : Booking :=
  {| user := user b; personalDetails := personalDetails b; treatment := treatment b;
     treatmentDetails := treatmentDetails b; location := location b; appointmentDate := appointmentDate b;
     appointmentTime := appointmentTime b; status := status b; paymentStatus := v;
     paymentMethod := paymentMethod b; totalAmount := totalAmount b; paymentUpdatedAt := paymentUpdatedAt b;
     fullyProcessed := fullyProcessed b; specialRequests := specialRequests b; notes := notes b;
     bookingReference := bookingReference b; cancellationReason := cancellationReason b;
     cancelledAt := cancelledAt b; rescheduledFrom := rescheduledFrom b; rescheduledAt := rescheduledAt b;
     rescheduleCount := rescheduleCount b; noShowMarkedAt := noShowMarkedAt b; rating := rating b;
     ratingComment := ratingComment b; feedback := feedback b; feedbackDate := feedbackDate b;
     assignedStaff := assignedStaff b; checkedIn := checkedIn b; checkInTime := checkInTime b;
     checkoutOTP := checkoutOTP b; checkedOut := checkedOut b; checkOutTime := checkOutTime b;
     adminCheckout := adminCheckout b; canCheckOut := canCheckOut b;
     checkOutEligibleTime := checkOutEligibleTime b; prescription := prescription b;
     remindersSent := remindersSent b |}.

Definition set_paymentUpdatedAt (v : option Z) (b : Booking) : Booking :=
  {| user := user b; personalDetails := personalDetails b; treatment := treatment b;
     treatmentDetails := treatmentDetails b; location := location b; appointmentDate := appointmentDate b;
     appointmentTime := appointmentTime b; status := status b; paymentStatus := paymentStatus b;
     paymentMethod := paymentMethod b; totalAmount := totalAmount b; paymentUpdatedAt := v;
     fullyProcessed := fullyProcessed b; specialRequests := specialRequests b; notes := notes b;
     bookingReference := bookingReference b; cancellationReason := cancellationReason b;
     cancelledAt := cancelledAt b; rescheduledFrom := rescheduledFrom b; rescheduledAt := rescheduledAt b;
     rescheduleCount := rescheduleCount b; noShowMarkedAt := noShowMarkedAt b; rating := rating b;
     ratingComment := ratingComment b; feedback := feedback b; feedbackDate := feedbackDate b;
     assignedStaff := assignedStaff b; checkedIn := checkedIn b; checkInTime := checkInTime b;
     checkoutOTP := checkoutOTP b; checkedOut := checkedOut b; checkOutTime := checkOutTime b;
     adminCheckout := adminCheckout b; canCheckOut := canCheckOut b;
     checkOutEligibleTime := checkOutEligibleTime b; prescription := prescription b;
     remindersSent := remindersSent b |}.

Definition set_fullyProcessed (v : bool) (b : Booking) : Booking :=
  {| user := user b; personalDetails := personalDetails b; treatment := treatment b;
     treatmentDetails := treatmentDetails b; location := location b; appointmentDate := appointmentDate b;
     appointmentTime := appointmentTime b; status := status b; paymentStatus := paymentStatus b;
     paymentMethod := paymentMethod b; totalAmount := totalAmount b; paymentUpdatedAt := paymentUpdatedAt b;
     fullyProcessed := v; specialRequests := specialRequests b; notes := notes b;
     bookingReference := bookingReference b; cancellationReason := cancellationReason b;
     cancelledAt := cancelledAt b; rescheduledFrom := rescheduledFrom b; rescheduledAt := rescheduledAt b;
     rescheduleCount := rescheduleCount b; noShowMarkedAt := noShowMarkedAt b; rating := rating b;
     ratingComment := ratingComment b; feedback := feedback b; feedbackDate := feedbackDate b;
     assignedStaff := assignedStaff b; checkedIn := checkedIn b; checkInTime := checkInTime b;
     checkoutOTP := checkoutOTP b; checkedOut := checkedOut b; checkOutTime := checkOutTime b;
     adminCheckout := adminCheckout b; canCheckOut := canCheckOut b;
     checkOutEligibleTime := checkOutEligibleTime b; prescription := prescription b;
     remindersSent := remindersSent b |}.

Definition set_notes (v : option string) (b : Booking) : Booking :=
  {| user := user b; personalDetails := personalDetails b; treatment := treatment b;
     treatmentDetails := treatmentDetails b; location := location b; appointmentDate := appointmentDate b;
     appointmentTime := appointmentTime b; status := status b; paymentStatus := paymentStatus b;
     paymentMethod := paymentMethod b; totalAmount := totalAmount b; paymentUpdatedAt := paymentUpdatedAt b;
     fullyProcessed := fullyProcessed b; specialRequests := specialRequests b; notes := v;
     bookingReference := bookingReference b; cancellationReason := cancellationReason b;
     cancelledAt := cancelledAt b; rescheduledFrom := rescheduledFrom b; rescheduledAt := rescheduledAt b;
     rescheduleCount := rescheduleCount b; noShowMarkedAt := noShowMarkedAt b; rating := rating b;
     ratingComment := ratingComment b; feedback := feedback b; feedbackDate := feedbackDate b;
     assignedStaff := assignedStaff b; checkedIn := checkedIn b; checkInTime := checkInTime b;
     checkoutOTP := checkoutOTP b; checkedOut := checkedOut b; checkOutTime := checkOutTime b;
     adminCheckout := adminCheckout b; canCheckOut := canCheckOut b;
     checkOutEligibleTime := checkOutEligibleTime b; prescription := prescription b;
     remindersSent := remindersSent b |}.

Definition set_bookingReference (v : string) (b : Booking) : Booking :=
  {| user := user b; personalDetails := personalDetails b; treatment := treatment b;
     treatmentDetails := treatmentDetails b; location := location b; appointmentDate := appointmentDate b;
     appointmentTime := appointmentTime b; status := status b; paymentStatus := paymentStatus b;
     paymentMethod := paymentMethod b; totalAmount := totalAmount b; paymentUpdatedAt := paymentUpdatedAt b;
     fullyProcessed := fullyProcessed b; specialRequests := specialRequests b; notes := notes b;
     bookingReference := v; cancellationReason := cancellationReason b; cancelledAt := cancelledAt b;
     rescheduledFrom := rescheduledFrom b; rescheduledAt := rescheduledAt b;
     rescheduleCount := rescheduleCount b; noShowMarkedAt := noShowMarkedAt b; rating := rating b;
     ratingComment := ratingComment b; feedback := feedback b; feedbackDate := feedbackDate b;
     assignedStaff := assignedStaff b; checkedIn := checkedIn b; checkInTime := checkInTime b;
     checkoutOTP := checkoutOTP b; checkedOut := checkedOut b; checkOutTime := checkOutTime b;
     adminCheckout := adminCheckout b; canCheckOut := canCheckOut b;
     checkOutEligibleTime := checkOutEligibleTime b; prescription := prescription b;
     remindersSent := remindersSent b |}.

Definition set_cancellationReason (v : option string) (b : Booking) : Booking :=
  {| user := user b; personalDetails := personalDetails b; treatment := treatment b;
     treatmentDetails := treatmentDetails b; location := location b; appointmentDate := appointmentDate b;
     appointmentTime := appointmentTime b; status := status b; paymentStatus := paymentStatus b;
     paymentMethod := paymentMethod b; totalAmount := totalAmount b; paymentUpdatedAt := paymentUpdatedAt b;
     fullyProcessed := fullyProcessed b; specialRequests := specialRequests b; notes := notes b;
     bookingReference := bookingReference b; cancellationReason := v; cancelledAt := cancelledAt b;
     rescheduledFrom := rescheduledFrom b; rescheduledAt := rescheduledAt b;
     rescheduleCount := rescheduleCount b; noShowMarkedAt := noShowMarkedAt b; rating := rating b;
     ratingComment := ratingComment b; feedback := feedback b; feedbackDate := feedbackDate b;
     assignedStaff := assignedStaff b; checkedIn := checkedIn b; checkInTime := checkInTime b;
     checkoutOTP := checkoutOTP b; checkedOut := checkedOut b; checkOutTime := checkOutTime b;
     adminCheckout := adminCheckout b; canCheckOut := canCheckOut b;
     checkOutEligibleTime := checkOutEligibleTime b; prescription := prescription b;
     remindersSent := remindersSent b |}.

Definition set_cancelledAt (v : option Z) (b : Booking) : Booking :=
  {| user := user b; personalDetails := personalDetails b; treatment := treatment b;
     treatmentDetails := treatmentDetails b; location := location b; appointmentDate := appointmentDate b;
     appointmentTime := appointmentTime b; status := status b; paymentStatus := paymentStatus b;
     paymentMethod := paymentMethod b; totalAmount := totalAmount b; paymentUpdatedAt := paymentUpdatedAt b;
     fullyProcessed := fullyProcessed b; specialRequests := specialRequests b; notes := notes b;
     bookingReference := bookingReference b; cancellationReason := cancellationReason b; cancelledAt := v;
     rescheduledFrom := rescheduledFrom b; rescheduledAt := rescheduledAt b;
     rescheduleCount := rescheduleCount b; noShowMarkedAt := noShowMarkedAt b; rating := rating b;
     ratingComment := ratingComment b; feedback := feedback b; feedbackDate := feedbackDate b;
     assignedStaff := assignedStaff b; checkedIn := checkedIn b; checkInTime := checkInTime b;
     checkoutOTP := checkoutOTP b; checkedOut := checkedOut b; checkOutTime := checkOutTime b;
     adminCheckout := adminCheckout b; canCheckOut := canCheckOut b;
     checkOutEligibleTime := checkOutEligibleTime b; prescription := prescription b;
     remindersSent := remindersSent b |}.

Definition set_rescheduledFrom (v : option (Z * string)) (b : Booking) : Booking :=
  {| user := user b; personalDetails := personalDetails b; treatment := treatment b;
     treatmentDetails := treatmentDetails b; location := location b; appointmentDate := appointmentDate b;
     appointmentTime := appointmentTime b; status := status b; paymentStatus := paymentStatus b;
     paymentMethod := paymentMethod b; totalAmount := totalAmount b; paymentUpdatedAt := paymentUpdatedAt b;
     fullyProcessed := fullyProcessed b; specialRequests := specialRequests b; notes := notes b;
     bookingReference := bookingReference b; cancellationReason := cancellationReason b;
     cancelledAt := cancelledAt b; rescheduledFrom := v; rescheduledAt := rescheduledAt b;
     rescheduleCount := rescheduleCount b; noShowMarkedAt := noShowMarkedAt b; rating := rating b;
     ratingComment := ratingComment b; feedback := feedback b; feedbackDate := feedbackDate b;
     assignedStaff := assignedStaff b; checkedIn := checkedIn b; checkInTime := checkInTime b;
     checkoutOTP := checkoutOTP b; checkedOut := checkedOut b; checkOutTime := checkOutTime b;
     adminCheckout := adminCheckout b; canCheckOut := canCheckOut b;
     checkOutEligibleTime := checkOutEligibleTime b; prescription := prescription b;
     remindersSent := remindersSent b |}.

Definition set_rescheduledAt (v : option Z) (b : Booking) : Booking :=
  {| user := user b; personalDetails := personalDetails b; treatment := treatment b;
     treatmentDetails := treatmentDetails b; location := location b; appointmentDate := appointmentDate b;
     appointmentTime := appointmentTime b; status := status b; paymentStatus := paymentStatus b;
     paymentMethod := paymentMethod b; totalAmount := totalAmount b; paymentUpdatedAt := paymentUpdatedAt b;
     fullyProcessed := fullyProcessed b; specialRequests := specialRequests b; notes := notes b;
     bookingReference := bookingReference b; cancellationReason := cancellationReason b;
     cancelledAt := cancelledAt b; rescheduledFrom := rescheduledFrom b; rescheduledAt := v;
     rescheduleCount := rescheduleCount b; noShowMarkedAt := noShowMarkedAt b; rating := rating b;
     ratingComment := ratingComment b; feedback := feedback b; feedbackDate := feedbackDate b;
     assignedStaff := assignedStaff b; checkedIn := checkedIn b; checkInTime := checkInTime b;
     checkoutOTP := checkoutOTP b; checkedOut := checkedOut b; checkOutTime := checkOutTime b;
     adminCheckout := adminCheckout b; canCheckOut := canCheckOut b;
     checkOutEligibleTime := checkOutEligibleTime b; prescription := prescription b;
     remindersSent := remindersSent b |}.

Definition set_rescheduleCount (v : Z) (b : Booking) : Booking :=
  {| user := user b; personalDetails := personalDetails b; treatment := treatment b;
     treatmentDetails := treatmentDetails b; location := location b; appointmentDate := appointmentDate b;
     appointmentTime := appointmentTime b; status := status b; paymentStatus := paymentStatus b;
     paymentMethod := paymentMethod b; totalAmount := totalAmount b; paymentUpdatedAt := paymentUpdatedAt b;
     fullyProcessed := fullyProcessed b; specialRequests := specialRequests b; notes := notes b;
     bookingReference := bookingReference b; cancellationReason := cancellationReason b;
     cancelledAt := cancelledAt b; rescheduledFrom := rescheduledFrom b; rescheduledAt := rescheduledAt b;
     rescheduleCount := v; noShowMarkedAt := noShowMarkedAt b; rating := rating b;
     ratingComment := ratingComment b; feedback := feedback b; feedbackDate := feedbackDate b;
     assignedStaff := assignedStaff b; checkedIn := checkedIn b; checkInTime := checkInTime b;
     checkoutOTP := checkoutOTP b; checkedOut := checkedOut b; checkOutTime := checkOutTime b;
     adminCheckout := adminCheckout b; canCheckOut := canCheckOut b;
     checkOutEligibleTime := checkOutEligibleTime b; prescription := prescription b;
     remindersSent := remindersSent b |}.

Definition set_noShowMarkedAt (v : option Z) (b : Booking) : Booking :=
  {| user := user b; personalDetails := personalDetails b; treatment := treatment b;
     treatmentDetails := treatmentDetails b; location := location b; appointmentDate := appointmentDate b;
     appointmentTime := appointmentTime b; status := status b; paymentStatus := paymentStatus b;
     paymentMethod := paymentMethod b; totalAmount := totalAmount b; paymentUpdatedAt := paymentUpdatedAt b;
     fullyProcessed := fullyProcessed b; specialRequests := specialRequests b; notes := notes b;
     bookingReference := bookingReference b; cancellationReason := cancellationReason b;
     cancelledAt := cancelledAt b; rescheduledFrom := rescheduledFrom b; rescheduledAt := rescheduledAt b;
     rescheduleCount := rescheduleCount b; noShowMarkedAt := v; rating := rating b;
     ratingComment := ratingComment b; feedback := feedback b; feedbackDate := feedbackDate b;
     assignedStaff := assignedStaff b; checkedIn := checkedIn b; checkInTime := checkInTime b;
     checkoutOTP := checkoutOTP b; checkedOut := checkedOut b; checkOutTime := checkOutTime b;
     adminCheckout := adminCheckout b; canCheckOut := canCheckOut b;
     checkOutEligibleTime := checkOutEligibleTime b; prescription := prescription b;
     remindersSent := remindersSent b |}.

Definition set_rating (v : option Z) (b : Booking) : Booking :=
  {| user := user b; personalDetails := personalDetails b; treatment := treatment b;
     treatmentDetails := treatmentDetails b; location := location b; appointmentDate := appointmentDate b;
     appointmentTime := appointmentTime b; status := status b; paymentStatus := paymentStatus b;
     paymentMethod := paymentMethod b; totalAmount := totalAmount b; paymentUpdatedAt := paymentUpdatedAt b;
     fullyProcessed := fullyProcessed b; specialRequests := specialRequests b; notes := notes b;
     bookingReference := bookingReference b; cancellationReason := cancellationReason b;
     cancelledAt := cancelledAt b; rescheduledFrom := rescheduledFrom b; rescheduledAt := rescheduledAt b;
     rescheduleCount := rescheduleCount b; noShowMarkedAt := noShowMarkedAt b; rating := v;
     ratingComment := ratingComment b; feedback := feedback b; feedbackDate := feedbackDate b;
     assignedStaff := assignedStaff b; checkedIn := checkedIn b; checkInTime := checkInTime b;
     checkoutOTP := checkoutOTP b; checkedOut := checkedOut b; checkOutTime := checkOutTime b;
     adminCheckout := adminCheckout b; canCheckOut := canCheckOut b;
     checkOutEligibleTime := checkOutEligibleTime b; prescription := prescription b;
     remindersSent := remindersSent b |}.

Definition set_ratingComment (v : option string) (b : Booking) : Booking :=
  {| user := user b; personalDetails := personalDetails b; treatment := treatment b;
     treatmentDetails := treatmentDetails b; location := location b; appointmentDate := appointmentDate b;
     appointmentTime := appointmentTime b; status := status b; paymentStatus := paymentStatus b;
     paymentMethod := paymentMethod b; totalAmount := totalAmount b; paymentUpdatedAt := paymentUpdatedAt b;
     fullyProcessed := fullyProcessed b; specialRequests := specialRequests b; notes := notes b;
     bookingReference := bookingReference b; cancellationReason := cancellationReason b;
     cancelledAt := cancelledAt b; rescheduledFrom := rescheduledFrom b; rescheduledAt := rescheduledAt b;
     rescheduleCount := rescheduleCount b; noShowMarkedAt := noShowMarkedAt b; rating := rating b;
     ratingComment := v; feedback := feedback b; feedbackDate := feedbackDate b;
     assignedStaff := assignedStaff b; checkedIn := checkedIn b; checkInTime := checkInTime b;
     checkoutOTP := checkoutOTP b; checkedOut := checkedOut b; checkOutTime := checkOutTime b;
     adminCheckout := adminCheckout b; canCheckOut := canCheckOut b;
     checkOutEligibleTime := checkOutEligibleTime b; prescription := prescription b;
     remindersSent := remindersSent b |}.

Definition set_feedback (v : option string) (b : Booking) : Booking :=
  {| user := user b; personalDetails := personalDetails b; treatment := treatment b;
     treatmentDetails := treatmentDetails b; location := location b; appointmentDate := appointmentDate b;
     appointmentTime := appointmentTime b; status := status b; paymentStatus := paymentStatus b;
     paymentMethod := paymentMethod b; totalAmount := totalAmount b; paymentUpdatedAt := paymentUpdatedAt b;
     fullyProcessed := fullyProcessed b; specialRequests := specialRequests b; notes := notes b;
     bookingReference := bookingReference b; cancellationReason := cancellationReason b;
     cancelledAt := cancelledAt b; rescheduledFrom := rescheduledFrom b; rescheduledAt := rescheduledAt b;
     rescheduleCount := rescheduleCount b; noShowMarkedAt := noShowMarkedAt b; rating := rating b;
     ratingComment := ratingComment b; feedback := v; feedbackDate := feedbackDate b;
     assignedStaff := assignedStaff b; checkedIn := checkedIn b; checkInTime := checkInTime b;
     checkoutOTP := checkoutOTP b; checkedOut := checkedOut b; checkOutTime := checkOutTime b;
     adminCheckout := adminCheckout b; canCheckOut := canCheckOut b;
     checkOutEligibleTime := checkOutEligibleTime b; prescription := prescription b;
     remindersSent := remindersSent b |}.

Definition set_feedbackDate (v : option Z) (b : Booking) : Booking :=
  {| user := user b; personalDetails := personalDetails b; treatment := treatment b;
     treatmentDetails := treatmentDetails b; location := location b; appointmentDate := appointmentDate b;
     appointmentTime := appointmentTime b; status := status b; paymentStatus := paymentStatus b;
     paymentMethod := paymentMethod b; totalAmount := totalAmount b; paymentUpdatedAt := paymentUpdatedAt b;
     fullyProcessed := fullyProcessed b; specialRequests := specialRequests b; notes := notes b;
     bookingReference := bookingReference b; cancellationReason := cancellationReason b;
     cancelledAt := cancelledAt b; rescheduledFrom := rescheduledFrom b; rescheduledAt := rescheduledAt b;
     rescheduleCount := rescheduleCount b; noShowMarkedAt := noShowMarkedAt b; rating := rating b;
     ratingComment := ratingComment b; feedback := feedback b; feedbackDate := v;
     assignedStaff := assignedStaff b; checkedIn := checkedIn b; checkInTime := checkInTime b;
     checkoutOTP := checkoutOTP b; checkedOut := checkedOut b; checkOutTime := checkOutTime b;
     adminCheckout := adminCheckout b; canCheckOut := canCheckOut b;
     checkOutEligibleTime := checkOutEligibleTime b; prescription := prescription b;
     remindersSent := remindersSent b |}.

Definition set_checkedIn (v : bool) (b : Booking) : Booking :=
  {| user := user b; personalDetails := personalDetails b; treatment := treatment b;
     treatmentDetails := treatmentDetails b; location := location b; appointmentDate := appointmentDate b;
     appointmentTime := appointmentTime b; status := status b; paymentStatus := paymentStatus b;
     paymentMethod := paymentMethod b; totalAmount := totalAmount b; paymentUpdatedAt := paymentUpdatedAt b;
     fullyProcessed := fullyProcessed b; specialRequests := specialRequests b; notes := notes b;
     bookingReference := bookingReference b; cancellationReason := cancellationReason b;
     cancelledAt := cancelledAt b; rescheduledFrom := rescheduledFrom b; rescheduledAt := rescheduledAt b;
     rescheduleCount := rescheduleCount b; noShowMarkedAt := noShowMarkedAt b; rating := rating b;
     ratingComment := ratingComment b; feedback := feedback b; feedbackDate := feedbackDate b;
     assignedStaff := assignedStaff b; checkedIn := v; checkInTime := checkInTime b;
     checkoutOTP := checkoutOTP b; checkedOut := checkedOut b; checkOutTime := checkOutTime b;
     adminCheckout := adminCheckout b; canCheckOut := canCheckOut b;
     checkOutEligibleTime := checkOutEligibleTime b; prescription := prescription b;
     remindersSent := remindersSent b |}.

Definition set_checkInTime (v : option Z) (b : Booking) : Booking :=
  {| user := user b; personalDetails := personalDetails b; treatment := treatment b;
     treatmentDetails := treatmentDetails b; location := location b; appointmentDate := appointmentDate b;
     appointmentTime := appointmentTime b; status := status b; paymentStatus := paymentStatus b;
     paymentMethod := paymentMethod b; totalAmount := totalAmount b; paymentUpdatedAt := paymentUpdatedAt b;
     fullyProcessed := fullyProcessed b; specialRequests := specialRequests b; notes := notes b;
     bookingReference := bookingReference b; cancellationReason := cancellationReason b;
     cancelledAt := cancelledAt b; rescheduledFrom := rescheduledFrom b; rescheduledAt := rescheduledAt b;
     rescheduleCount := rescheduleCount b; noShowMarkedAt := noShowMarkedAt b; rating := rating b;
     ratingComment := ratingComment b; feedback := feedback b; feedbackDate := feedbackDate b;
     assignedStaff := assignedStaff b; checkedIn := checkedIn b; checkInTime := v;
     checkoutOTP := checkoutOTP b; checkedOut := checkedOut b; checkOutTime := checkOutTime b;
     adminCheckout := adminCheckout b; canCheckOut := canCheckOut b;
     checkOutEligibleTime := checkOutEligibleTime b; prescription := prescription b;
     remindersSent := remindersSent b |}.

Definition set_checkoutOTP (v : option string) (b : Booking) : Booking :=
  {| user := user b; personalDetails := personalDetails b; treatment := treatment b;
     treatmentDetails := treatmentDetails b; location := location b; appointmentDate := appointmentDate b;
     appointmentTime := appointmentTime b; status := status b; paymentStatus := paymentStatus b;
     paymentMethod := paymentMethod b; totalAmount := totalAmount b; paymentUpdatedAt := paymentUpdatedAt b;
     fullyProcessed := fullyProcessed b; specialRequests := specialRequests b; notes := notes b;
     bookingReference := bookingReference b; cancellationReason := cancellationReason b;
     cancelledAt := cancelledAt b; rescheduledFrom := rescheduledFrom b; rescheduledAt := rescheduledAt b;
     rescheduleCount := rescheduleCount b; noShowMarkedAt := noShowMarkedAt b; rating := rating b;
     ratingComment := ratingComment b; feedback := feedback b; feedbackDate := feedbackDate b;
     assignedStaff := assignedStaff b; checkedIn := checkedIn b; checkInTime := checkInTime b;
     checkoutOTP := v; checkedOut := checkedOut b; checkOutTime := checkOutTime b;
     adminCheckout := adminCheckout b; canCheckOut := canCheckOut b;
     checkOutEligibleTime := checkOutEligibleTime b; prescription := prescription b;
     remindersSent := remindersSent b |}.

Definition set_checkedOut (v : bool) (b : Booking) : Booking :=
  {| user := user b; personalDetails := personalDetails b; treatment := treatment b;
     treatmentDetails := treatmentDetails b; location := location b; appointmentDate := appointmentDate b;
     appointmentTime := appointmentTime b; status := status b; paymentStatus := paymentStatus b;
     paymentMethod := paymentMethod b; totalAmount := totalAmount b; paymentUpdatedAt := paymentUpdatedAt b;
     fullyProcessed := fullyProcessed b; specialRequests := specialRequests b; notes := notes b;
     bookingReference := bookingReference b; cancellationReason := cancellationReason b;
     cancelledAt := cancelledAt b; rescheduledFrom := rescheduledFrom b; rescheduledAt := rescheduledAt b;
     rescheduleCount := rescheduleCount b; noShowMarkedAt := noShowMarkedAt b; rating := rating b;
     ratingComment := ratingComment b; feedback := feedback b; feedbackDate := feedbackDate b;
     assignedStaff := assignedStaff b; checkedIn := checkedIn b; checkInTime := checkInTime b;
     checkoutOTP := checkoutOTP b; checkedOut := v; checkOutTime := checkOutTime b;
     adminCheckout := adminCheckout b; canCheckOut := canCheckOut b;
     checkOutEligibleTime := checkOutEligibleTime b; prescription := prescription b;
     remindersSent := remindersSent b |}.

Definition set_checkOutTime (v : option Z) (b : Booking) : Booking :=
  {| user := user b; personalDetails := personalDetails b; treatment := treatment b;
     treatmentDetails := treatmentDetails b; location := location b; appointmentDate := appointmentDate b;
     appointmentTime := appointmentTime b; status := status b; paymentStatus := paymentStatus b;
     paymentMethod := paymentMethod b; totalAmount := totalAmount b; paymentUpdatedAt := paymentUpdatedAt b;
     fullyProcessed := fullyProcessed b; specialRequests := specialRequests b; notes := notes b;
     bookingReference := bookingReference b; cancellationReason := cancellationReason b;
     cancelledAt := cancelledAt b; rescheduledFrom := rescheduledFrom b; rescheduledAt := rescheduledAt b;
     rescheduleCount := rescheduleCount b; noShowMarkedAt := noShowMarkedAt b; rating := rating b;
     ratingComment := ratingComment b; feedback := feedback b; feedbackDate := feedbackDate b;
     assignedStaff := assignedStaff b; checkedIn := checkedIn b; checkInTime := checkInTime b;
     checkoutOTP := checkoutOTP b; checkedOut := checkedOut b; checkOutTime := v;
     adminCheckout := adminCheckout b; canCheckOut := canCheckOut b;
     checkOutEligibleTime := checkOutEligibleTime b; prescription := prescription b;
     remindersSent := remindersSent b |}.

Definition set_adminCheckout (v : option string) (b : Booking) : Booking :=
  {| user := user b; personalDetails := personalDetails b; treatment := treatment b;
     treatmentDetails := treatmentDetails b; location := location b; appointmentDate := appointmentDate b;
     appointmentTime := appointmentTime b; status := status b; paymentStatus := paymentStatus b;
     paymentMethod := paymentMethod b; totalAmount := totalAmount b; paymentUpdatedAt := paymentUpdatedAt b;
     fullyProcessed := fullyProcessed b; specialRequests := specialRequests b; notes := notes b;
     bookingReference := bookingReference b; cancellationReason := cancellationReason b;
     cancelledAt := cancelledAt b; rescheduledFrom := rescheduledFrom b; rescheduledAt := rescheduledAt b;
     rescheduleCount := rescheduleCount b; noShowMarkedAt := noShowMarkedAt b; rating := rating b;
     ratingComment := ratingComment b; feedback := feedback b; feedbackDate := feedbackDate b;
     assignedStaff := assignedStaff b; checkedIn := checkedIn b; checkInTime := checkInTime b;
     checkoutOTP := checkoutOTP b; checkedOut := checkedOut b; checkOutTime := checkOutTime b;
     adminCheckout := v; canCheckOut := canCheckOut b; checkOutEligibleTime := checkOutEligibleTime b;
     prescription := prescription b; remindersSent := remindersSent b |}.

Definition set_canCheckOut (v : bool) (b : Booking) : Booking :=
  {| user := user b; personalDetails := personalDetails b; treatment := treatment b;
     treatmentDetails := treatmentDetails b; location := location b; appointmentDate := appointmentDate b;
     appointmentTime := appointmentTime b; status := status b; paymentStatus := paymentStatus b;
     paymentMethod := paymentMethod b; totalAmount := totalAmount b; paymentUpdatedAt := paymentUpdatedAt b;
     fullyProcessed := fullyProcessed b; specialRequests := specialRequests b; notes := notes b;
     bookingReference := bookingReference b; cancellationReason := cancellationReason b;
     cancelledAt := cancelledAt b; rescheduledFrom := rescheduledFrom b; rescheduledAt := rescheduledAt b;
     rescheduleCount := rescheduleCount b; noShowMarkedAt := noShowMarkedAt b; rating := rating b;
     ratingComment := ratingComment b; feedback := feedback b; feedbackDate := feedbackDate b;
     assignedStaff := assignedStaff b; checkedIn := checkedIn b; checkInTime := checkInTime b;
     checkoutOTP := checkoutOTP b; checkedOut := checkedOut b; checkOutTime := checkOutTime b;
     adminCheckout := adminCheckout b; canCheckOut := v; checkOutEligibleTime := checkOutEligibleTime b;
     prescription := prescription b; remindersSent := remindersSent b |}.

Definition set_checkOutEligibleTime (v : option Z) (b : Booking) : Booking :=
  {| user := user b; personalDetails := personalDetails b; treatment := treatment b;
     treatmentDetails := treatmentDetails b; location := location b; appointmentDate := appointmentDate b;
     appointmentTime := appointmentTime b; status := status b; paymentStatus := paymentStatus b;
     paymentMethod := paymentMethod b; totalAmount := totalAmount b; paymentUpdatedAt := paymentUpdatedAt b;
     fullyProcessed := fullyProcessed b; specialRequests := specialRequests b; notes := notes b;
     bookingReference := bookingReference b; cancellationReason := cancellationReason b;
     cancelledAt := cancelledAt b; rescheduledFrom := rescheduledFrom b; rescheduledAt := rescheduledAt b;
     rescheduleCount := rescheduleCount b; noShowMarkedAt := noShowMarkedAt b; rating := rating b;
     ratingComment := ratingComment b; feedback := feedback b; feedbackDate := feedbackDate b;
     assignedStaff := assignedStaff b; checkedIn := checkedIn b; checkInTime := checkInTime b;
     checkoutOTP := checkoutOTP b; checkedOut := checkedOut b; checkOutTime := checkOutTime b;
     adminCheckout := adminCheckout b; canCheckOut := canCheckOut b; checkOutEligibleTime := v;
     prescription := prescription b; remindersSent := remindersSent b |}.

Definition set_remindersSent (v : list Reminder) (b : Booking) : Booking :=
  {| user := user b; personalDetails := personalDetails b; treatment := treatment b;
     treatmentDetails := treatmentDetails b; location := location b; appointmentDate := appointmentDate b;
     appointmentTime := appointmentTime b; status := status b; paymentStatus := paymentStatus b;
     paymentMethod := paymentMethod b; totalAmount := totalAmount b; paymentUpdatedAt := paymentUpdatedAt b;
     fullyProcessed := fullyProcessed b; specialRequests := specialRequests b; notes := notes b;
     bookingReference := bookingReference b; cancellationReason := cancellationReason b;
     cancelledAt := cancelledAt b; rescheduledFrom := rescheduledFrom b; rescheduledAt := rescheduledAt b;
     rescheduleCount := rescheduleCount b; noShowMarkedAt := noShowMarkedAt b; rating := rating b;
     ratingComment := ratingComment b; feedback := feedback b; feedbackDate := feedbackDate b;
     assignedStaff := assignedStaff b; checkedIn := checkedIn b; checkInTime := checkInTime b;
     checkoutOTP := checkoutOTP b; checkedOut := checkedOut b; checkOutTime := checkOutTime b;
     adminCheckout := adminCheckout b; canCheckOut := canCheckOut b;
     checkOutEligibleTime := checkOutEligibleTime b; prescription := prescription b; remindersSent := v |}.

(** The treatment catalogue, as far as booking creation reads it. *)
Record Treatment := mkTreatment {
  treatmentInfo : TreatmentDetails;
  isActive : bool;
  availableLocations : list Location
}.

(** The booking collection and the treatment collection. *)
Abbreviation Store := (gmap string Booking).
Abbreviation Catalogue := (gmap string Treatment).

(** A JSON response: HTTP status code, [success] flag and [message]. *)
Record Response := mkResponse {
  code : Z;
  success : bool;
  message : string
}.

Definition ok (c : Z) (msg : string) : Response := mkResponse c true msg.
Definition fail (c : Z) (msg : string) : Response := mkResponse c false msg.

(** A computation that returns or throws.  The message of an error that
    Mongoose or the runtime raises is indicative; the routes answer it with
    their own 500 message. *)
Inductive Exn (A : Type) :=
  | Return (a : A)
  | Throw (msg : string).
Arguments Return {A} a.
Arguments Throw {A} msg.

(** *** Schema validation and [save] *)

Definition lengthAtMost (n : nat) (s : option string) : bool :=
  match s with
  | None => true
  | Some x => (String.length x <=? n)%nat
  end.

(** Validators of the schema that a document of this type can fail: the
    [status] enum, the [maxlength] limits and the range of [rating]. *)
Definition statusInEnum (s : Status) : bool :=
  bool_decide (s ∈ [Confirmed; InProgress; Completed; Cancelled; Rescheduled; NoShow]).

Definition withinLimits (b : Booking) : bool :=
  lengthAtMost 500 (specialRequests b)
  && lengthAtMost 1000 (notes b)
  && lengthAtMost 500 (ratingComment b)
  && lengthAtMost 1000 (feedback b)
  && match rating b with
     | None => true
     | Some r => (1 <=? r) && (r <=? 5)
     end.

Definition validate (b : Booking) : bool := statusInEnum (status b) && withinLimits b.

(** [doc.save()] on a document loaded from the collection ([isNew] is false,
    so the pre-save hook leaves [bookingReference] alone). *)
Definition save (id : string) (b : Booking) (db : Store) : Exn Store :=
  if validate b then Return (<[id := b]> db) else Throw "Booking validation failed".

Notation "x |> f" := (f x) (at level 69, left associativity, only parsing).

(** What a handler answers when [save] threw: the [catch] block's 500. *)
Definition saved (onOk : Response) (onThrow : string) (r : Exn Store) (db : Store)
  : Response * Store :=
  match r with
  | Return db' => (onOk, db')
  | Throw _ => (fail 500 onThrow, db)
  end.

(** *** Instance and static methods of the model *)

(** [bookingSchema.methods.cancelBooking] *)
Definition cancelBooking (reason : string) (now : Z) (id : string) (b : Booking) (db : Store)
  : Exn Store :=
  save id (b |> set_status Cancelled
             |> set_cancellationReason (Some reason)
             |> set_cancelledAt (Some now)) db.

(** [bookingSchema.methods.rescheduleBooking].  [newDate] is the time value
    of [new Date(newDate)], [None] for an Invalid Date, which the schema's
    [Date] path refuses at [save]. *)
Definition rescheduleBooking (newDate : option Z) (newTime : string) (now : Z)
    (id : string) (b : Booking) (db : Store) : Exn Store :=
  if rescheduleCount b >=? 1 then Throw "Appointment can only be rescheduled once"
  else
    match newDate with
    | None => Throw "Booking validation failed"
    | Some d =>
        save id (b |> set_rescheduledFrom (Some (appointmentDate b, appointmentTime b))
                   |> set_appointmentDate d
                   |> set_appointmentTime newTime
                   |> set_status Rescheduled
                   |> set_rescheduledAt (Some now)
                   |> set_rescheduleCount (rescheduleCount b + 1)) db
    end.

(** [bookingSchema.methods.completeBooking] *)
Definition completeBooking (id : string) (b : Booking) (db : Store) : Exn Store :=
  save id (b |> set_status Completed) db.

(** [bookingSchema.methods.markAsNoShow] *)
Definition markAsNoShow (now : Z) (id : string) (b : Booking) (db : Store) : Exn Store :=
  save id (b |> set_status NoShow |> set_noShowMarkedAt (Some now)) db.

(** [bookingSchema.methods.addFeedback] *)
Definition addFeedback (r : Z) (fb : option string) (now : Z) (id : string) (b : Booking)
    (db : Store) : Exn Store :=
  save id (b |> set_rating (Some r) |> set_feedback fb |> set_feedbackDate (Some now)) db.

(** The filter of [markNoShowAppointments]:
    [{ status: 'confirmed', appointmentDate: { $lt: cutoffTime }, checkedIn: { $ne: true } }] *)
Definition noShowFilter (cutoffTime : Z) (b : Booking) : bool :=
  bool_decide (status b = Confirmed)
  && (appointmentDate b <? cutoffTime)
  && negb (checkedIn b).

(** Its update: [{ $set: { status: 'no-show', noShowMarkedAt: now } }] *)
Definition noShowUpdate (now : Z) (b : Booking) : Booking :=
  b |> set_status NoShow |> set_noShowMarkedAt (Some now).

(** [bookingSchema.statics.markNoShowAppointments]: [updateMany] returns the
    number of documents it modified together with the new collection. *)
Definition markNoShowAppointments (now : Z) (db : Store) : nat * Store :=
  let cutoffTime := now - 30 * 60 * 1000 in
  (length (filter (λ kb, noShowFilter cutoffTime kb.2 = true) (map_to_list db)),
   (λ b, if noShowFilter cutoffTime b then noShowUpdate now b else b) <$> db).

(** *** Booking reference *)

(** The calendar fields a [Date] reports in local time. *)
Record CalendarDate := mkCalendarDate {
  getFullYear : Z;
  getMonth : Z;
  getDate : Z
}.

Definition dateStr (d : CalendarDate) : string :=
  JS.toString (getFullYear d)
  +:+ JS.padStart (JS.toString (getMonth d + 1)) 2 "0"
  +:+ JS.padStart (JS.toString (getDate d)) 2 "0".

(** [`ZEN${dateStr}${randomNum}`] with
    [randomNum = Math.floor(1000 + Math.random() * 9000)] *)
Definition generateReference (d : CalendarDate) (r : Q) : string :=
  "ZEN" +:+ dateStr d +:+ JS.toString (JS.randomInt 1000 9000 r).

(** [bookingSchema.pre('save')] *)
Definition preSave (isNew : bool) (date : CalendarDate) (r : Q) (b : Booking) : Booking :=
  if isNew then set_bookingReference (generateReference date r) b else b.

(** The unique index on [bookingReference]. *)
Definition referenceTaken (ref : string) (db : Store) : bool :=
  existsb (λ kb, String.eqb (bookingReference kb.2) ref) (map_to_list db).

(** [save] of a document made by [new Booking(...)]: validation, the pre-save
    hook, then the insert, which the unique indexes can refuse. *)
Definition saveNew (id : string) (date : CalendarDate) (r : Q) (b : Booking) (db : Store)
  : Exn Store :=
  if validate b then
    let b' := preSave true date r b in
    if referenceTaken (bookingReference b') db || bool_decide (is_Some (db !! id))
    then Throw "E11000 duplicate key error"
    else Return (<[id := b']> db)
  else Throw "Booking validation failed".

(** ** Routes ([src/routes/bookings.js])

    A handler is a function from its inputs and the collection to its
    response and the new collection.  The inputs have the types that the
    route's format validators enforce (a location of the enum, a well-formed
    id); the validators that a typed input can still fail are part of the
    handler.  Emails are sent after the write and their failure is swallowed,
    so they do not appear; the month calendar, which only reads, is left
    out. *)

Definition lengthBetween (lo hi : nat) (s : string) : bool :=
  (lo <=? String.length s)%nat && (String.length s <=? hi)%nat.

(** [body(f).optional().isLength({ min, max })] *)
Definition optionalLength (lo hi : nat) (s : option string) : bool :=
  match s with
  | None => true
  | Some x => lengthBetween lo hi x
  end.

(** [booking.checkOutEligibleTime || new Date(booking.checkInTime.getTime() + 20 * 60 * 1000)];
    it throws a [TypeError] when both paths are undefined. *)
Definition eligibleTime (b : Booking) : Exn Z :=
  match checkOutEligibleTime b with
  | Some t => Return t
  | None =>
      match checkInTime b with
      | Some c => Return (c + 20 * 60 * 1000)
      | None => Throw "Cannot read properties of undefined"
      end
  end.

(** *** [GET /:id] *)
Definition getBookingById (caller : string) (now : Z) (id : string) (db : Store)
  : Response * Store :=
  match db !! id with
  | None => (fail 404 "Booking not found", db)
  | Some booking =>
      if negb (String.eqb (user booking) caller) then (fail 403 "Access denied", db)
      else
        let found := ok 200 "Booking retrieved successfully" in
        if checkedIn booking && negb (checkedOut booking) then
          match eligibleTime booking with
          | Throw _ => (fail 500 "Failed to retrieve booking", db)
          | Return checkOutEligibleTime =>
              if now >=? checkOutEligibleTime
              then saved found "Failed to retrieve booking"
                     (save id (booking |> set_canCheckOut true) db) db
              else (found, db)
          end
        else (found, db)
  end.

(** *** [POST /] *)

Record CreateRequest := mkCreateRequest {
  treatmentId : string;
  reqPersonalDetails : PersonalDetails;
  reqLocation : Location;
  (** [new Date(year, month - 1, day, hour, minute)] of the requested date and time *)
  appointmentDateTime : Z;
  reqAppointmentTime : string;
  reqSpecialRequests : option string;
  reqPaymentMethod : option PaymentMethod
}.

(** [new Date(new Date().toLocaleString("en-US", { timeZone: "Asia/Kolkata" }))]:
    the wall clock of Asia/Kolkata, to the second, read as server-local time. *)
Definition currentISTTime (tz now : Z) : Z := now / 1000 * 1000 + (19800000 - tz).

Definition newBooking (caller : string) (req : CreateRequest) (t : Treatment)
    (bookingReference : string) : Booking :=
  {| user := caller;
     personalDetails := reqPersonalDetails req;
     treatment := treatmentId req;
     treatmentDetails := treatmentInfo t;
     location := reqLocation req;
     appointmentDate := appointmentDateTime req;
     appointmentTime := reqAppointmentTime req;
     status := Confirmed;
     paymentStatus := PaymentPending;
     paymentMethod := default Cash (reqPaymentMethod req);
     totalAmount := price (treatmentInfo t);
     paymentUpdatedAt := None;
     fullyProcessed := false;
     specialRequests := reqSpecialRequests req;
     notes := None;
     bookingReference := bookingReference;
     cancellationReason := None;
     cancelledAt := None;
     rescheduledFrom := None;
     rescheduledAt := None;
     rescheduleCount := 0;
     noShowMarkedAt := None;
     rating := None;
     ratingComment := None;
     feedback := None;
     feedbackDate := None;
     assignedStaff := None;
     checkedIn := false;
     checkInTime := None;
     checkoutOTP := None;
     checkedOut := false;
     checkOutTime := None;
     adminCheckout := None;
     canCheckOut := false;
     checkOutEligibleTime := None;
     prescription := mkPrescription [] None [];
     remindersSent := [] |}.

(** [istDate] holds the calendar fields of the Asia/Kolkata date read by the
    route, [saveDate] those of the server-local date read by the pre-save
    hook; [r1] and [r2] are the two random draws and [newId] the fresh
    ObjectId. *)
Definition createBooking (tz : Z) (catalogue : Catalogue) (caller : string) (now : Z)
    (istDate saveDate : CalendarDate) (r1 r2 : Q) (newId : string)
    (req : CreateRequest) (db : Store) : Response * Store :=
  if negb (optionalLength 0 500 (reqSpecialRequests req)) then (fail 400 "Validation failed", db)
  else
    match catalogue !! treatmentId req with
    | None => (fail 404 "Treatment not found or not available", db)
    | Some t =>
        if negb (isActive t) then (fail 404 "Treatment not found or not available", db)
        else if negb (bool_decide (reqLocation req ∈ availableLocations t))
        then (fail 400 "Treatment is not available at the selected location", db)
        else if appointmentDateTime req <=? currentISTTime tz now
        then (fail 400 "Appointment date and time must be in the future", db)
        else
          let bookingReference := generateReference istDate r1 in
          saved (ok 201 "Booking created successfully") "Failed to create booking"
            (saveNew newId saveDate r2 (newBooking caller req t bookingReference) db) db
    end.

(** *** [PATCH /:id/status] *)
Definition updateBookingStatus (caller : string) (now : Z) (id : string)
    (newStatus : Status) (cancellationReason : option string) (db : Store)
  : Response * Store :=
  if negb (bool_decide (newStatus ∈ [Pending; Confirmed; InProgress; Completed; Cancelled; Rescheduled])
           && optionalLength 5 500 cancellationReason)
  then (fail 400 "Validation failed", db)
  else
    match db !! id with
    | None => (fail 404 "Booking not found", db)
    | Some booking =>
        if negb (String.eqb (user booking) caller) then (fail 403 "Access denied", db)
        else
          let done := ok 200 ("Booking " +:+ statusName newStatus +:+ " successfully") in
          if bool_decide (newStatus = Cancelled) then
            match cancellationReason with
            | None => (fail 400 "Cancellation reason is required", db)
            | Some reason =>
                saved done "Failed to update booking status"
                  (cancelBooking reason now id booking db) db
            end
          else
            saved done "Failed to update booking status"
              (save id (booking |> set_status newStatus) db) db
    end.

(** *** [PATCH /:id/reschedule]

    [newDate] is [new Date(appointmentDate)] for the request's date string
    ([None]: Invalid Date, which compares false with everything); [now] is
    the route's clock reading, [now2] the method's. *)
Definition reschedule (caller : string) (now now2 : Z) (id : string)
    (newDate : option Z) (newTime : string) (db : Store) : Response * Store :=
  match db !! id with
  | None => (fail 404 "Booking not found", db)
  | Some booking =>
      if negb (String.eqb (user booking) caller) then (fail 403 "Access denied", db)
      else if match newDate with Some d => d <? now | None => false end
      then (fail 400 "New appointment date must be in the future", db)
      else if bool_decide (status booking ∈ [Completed; Cancelled])
      then (fail 400 "Cannot reschedule completed or cancelled bookings", db)
      else if rescheduleCount booking >=? 1
      then (fail 400 "Appointment can only be rescheduled once", db)
      else
        saved (ok 200 "Booking rescheduled successfully") "Failed to reschedule booking"
          (rescheduleBooking newDate newTime now2 id booking db) db
  end.

(** *** [PATCH /:id/feedback]

    The review this route then adds to the treatment is outside the booking
    collection and is not modelled. *)
Definition addFeedbackRoute (caller : string) (now : Z) (id : string)
    (rating : Z) (feedback : option string) (db : Store) : Response * Store :=
  if negb ((1 <=? rating) && (rating <=? 5) && optionalLength 10 1000 feedback)
  then (fail 400 "Validation failed", db)
  else
    match db !! id with
    | None => (fail 404 "Booking not found", db)
    | Some booking =>
        if negb (String.eqb (user booking) caller) then (fail 403 "Access denied", db)
        else if negb (bool_decide (status booking = Completed))
        then (fail 400 "Can only rate completed bookings", db)
        else
          saved (ok 200 "Feedback added successfully") "Failed to add feedback"
            (addFeedback rating feedback now id booking db) db
    end.

(** *** [PUT /:id/cancel] *)
Definition cancel (caller : string) (id : string) (db : Store) : Response * Store :=
  match db !! id with
  | None => (fail 404 "Booking not found", db)
  | Some booking =>
      if negb (String.eqb (user booking) caller) then (fail 403 "Access denied", db)
      else if negb (bool_decide (status booking ∈ [Pending; Confirmed]))
      then (fail 400 "This booking cannot be cancelled", db)
      else
        saved (ok 200 "Booking cancelled successfully") "Failed to cancel booking"
          (save id (booking |> set_status Cancelled) db) db
  end.

(** *** [PUT /:id/rate] *)
Definition rate (caller : string) (id : string) (rating : Z) (comment : option string)
    (db : Store) : Response * Store :=
  if negb ((1 <=? rating) && (rating <=? 5) && optionalLength 0 500 comment)
  then (fail 400 "Validation failed", db)
  else
    match db !! id with
    | None => (fail 404 "Booking not found", db)
    | Some booking =>
        if negb (String.eqb (user booking) caller) then (fail 403 "Access denied", db)
        else if negb (bool_decide (status booking = Completed))
        then (fail 400 "Only completed bookings can be rated", db)
        else
          saved (ok 200 "Rating submitted successfully") "Failed to submit rating"
            (save id (booking |> set_rating (Some rating) |> set_ratingComment comment) db) db
    end.

(** *** [GET /availability/:date] *)

Definition isDigit (c : ascii) : bool :=
  (48 <=? nat_of_ascii c)%nat && (nat_of_ascii c <=? 57)%nat.

Definition digitValue (c : ascii) : Z := Z.of_nat (nat_of_ascii c) - 48.

(** [s.split(':')[0]] *)
Fixpoint beforeColon (s : string) : string :=
  match s with
  | EmptyString => EmptyString
  | String c rest => if Ascii.eqb c ":" then EmptyString else String c (beforeColon rest)
  end.

Fixpoint leadingDigits (s : string) (acc : option Z) : option Z :=
  match s with
  | EmptyString => acc
  | String c rest =>
      if isDigit c then leadingDigits rest (Some (10 * default 0 acc + digitValue c)) else acc
  end.

(** [parseInt] on text that starts with neither blank, sign nor radix prefix:
    the value of the leading decimal digits, [None] (NaN) when there are none. *)
Definition parseInt (s : string) : option Z := leadingDigits s None.

Record SlotDetail := mkSlotDetail {
  time : string;
  isAvailable : bool;
  isBooked : bool;
  isPastTime : bool
}.

Record Availability := mkAvailability {
  availableSlots : list string;
  bookedSlots : list string;
  slotDetails : list SlotDetail;
  totalSlots : nat;
  availableCount : nat;
  fullyBooked : bool
}.

(** [for (let hour = 10; hour <= 19; hour++) timeSlots.push(`${hour.toString().padStart(2, '0')}:00`)] *)
Definition timeSlots : list string :=
  (λ hour, JS.padStart (JS.toString hour) 2 "0" +:+ ":00") <$> seqZ 10 10.

(** The filter of the route's [Booking.find]: [appointmentDate] from [$gte]
    the start of the day to [$lt] its last millisecond, the location, and a
    status [$in] pending, confirmed, in-progress. *)
Definition availabilityFilter (dayStart dayEnd : Z) (loc : Location) (b : Booking) : bool :=
  (dayStart <=? appointmentDate b) && (appointmentDate b <? dayEnd)
  && bool_decide (location b = loc)
  && bool_decide (status b ∈ [Pending; Confirmed; InProgress]).

Definition slotDetail (existingBookings : list Booking) (isToday : bool) (currentHour : Z)
    (slot : string) : SlotDetail :=
  let isBooked := existsb (λ booking, String.eqb (appointmentTime booking) slot) existingBookings in
  let isPastTime :=
    if isToday then
      match parseInt (beforeColon slot) with
      | Some slotHour => slotHour <=? currentHour + 1
      | None => false
      end
    else false in
  let isAvailable := negb isBooked && negb isPastTime in
  mkSlotDetail slot isAvailable isBooked isPastTime.

(** [date] is the time value of [new Date(req.params.date)], [None] when it is
    NaN; [today] is the clock reading. *)
Definition getAvailability (tz : Z) (date : option Z) (loc : Location) (today : Z) (db : Store)
  : Response * option Availability :=
  match date with
  | None => (fail 400 "Invalid date format", None)
  | Some appointmentDate =>
      let todayStart := Clock.startOfLocalDay tz today in
      if appointmentDate <? todayStart
      then (fail 400 "Cannot check availability for past dates", None)
      else
        let dayStart := Clock.startOfLocalDay tz appointmentDate in
        let dayEnd := Clock.endOfLocalDay tz dayStart in
        let existingBookings :=
          filter (λ b, availabilityFilter dayStart dayEnd loc b = true) (map_to_list db).*2 in
        let isToday := bool_decide (Clock.localDay tz dayEnd = Clock.localDay tz today) in
        let currentHour := Clock.getHours tz today in
        let slotDetails := slotDetail existingBookings isToday currentHour <$> timeSlots in
        let bookedTimes := appointmentTime <$> existingBookings in
        let availableSlots := time <$> filter (λ slot, isAvailable slot = true) slotDetails in
        (ok 200 "Available time slots retrieved successfully",
         Some (mkAvailability availableSlots bookedTimes slotDetails (length timeSlots)
                 (length availableSlots) (bool_decide (length availableSlots = 0%nat))))
  end.

(** *** [POST /:id/checkin] *)

(** The text handed to [new Date] starts with an ISO date and a [T]; what
    follows the [T] is read as the engine (V8) reads the time of an ISO
    date-time: [HH:mm], then optionally [:ss] and a fraction of a second,
    then optionally a zone, [Z] or a signed [HH:mm] or [HHmm].  A number is a
    maximal run of digits, so an hour of one digit is no hour.  Any text that
    departs from this after the [T] makes the whole date an Invalid Date. *)

(** The run of digits at the head of a text, and the rest of the text. *)
Fixpoint digitRun (s : string) : string * string :=
  match s with
  | EmptyString => (EmptyString, EmptyString)
  | String c rest =>
      if isDigit c
      then let '(digits, tail) := digitRun rest in (String c digits, tail)
      else (EmptyString, s)
  end.

Fixpoint dropZeros (s : string) : string :=
  match s with
  | String c rest => if Ascii.eqb c "0" then dropZeros rest else s
  | EmptyString => EmptyString
  end.

(** The value of a run of digits: leading zeros are skipped and at most nine
    digits are read after them. *)
Definition readUnsignedNumeral (digits : string) : Z :=
  default 0 (leadingDigits (substring 0 9 (dropZeros digits)) None).

(** A number of exactly [n] digits at the head of a text. *)
Definition fixedNumber (n : nat) (s : string) : option (Z * string) :=
  let '(digits, rest) := digitRun s in
  if (String.length digits =? n)%nat then Some (readUnsignedNumeral digits, rest) else None.

Definition skipSymbol (c : ascii) (s : string) : option string :=
  match s with
  | String c' rest => if Ascii.eqb c' c then Some rest else None
  | EmptyString => None
  end.

(** The milliseconds of a fraction of a second: its three most significant
    digits. *)
Definition readMilliseconds (digits : string) : Z :=
  let number := readUnsignedNumeral digits in
  let len := String.length digits in
  if (len =? 1)%nat then number * 100
  else if (len =? 2)%nat then number * 10
  else if (3 <? len)%nat then number / 10 ^ Z.of_nat (Nat.min len 9 - 3)
  else number.

(** The zone designator that ends the text: [Some None] when there is none,
    [Some (Some offset)] for a zone [offset] milliseconds east of UTC, [None]
    when the text is not a zone. *)
Definition parseZone (s : string) : option (option Z) :=
  match s with
  | EmptyString => Some None
  | String c rest =>
      if Ascii.eqb c "Z" || Ascii.eqb c "z" then
        match rest with
        | EmptyString => Some (Some 0)
        | _ => None
        end
      else if Ascii.eqb c "+" || Ascii.eqb c "-" then
        let sign := if Ascii.eqb c "+" then 1 else -1 in
        let zone (hour minute : Z) (tail : string) : option (option Z) :=
          match tail with
          | EmptyString =>
              if (hour <=? 23) && (minute <=? 59)
              then Some (Some (sign * ((hour * 60 + minute) * 60 * 1000)))
              else None
          | _ => None
          end in
        match fixedNumber 4 rest with
        | Some (hourmin, tail) => zone (hourmin / 100) (hourmin mod 100) tail
        | None =>
            match fixedNumber 2 rest with
            | Some (hour, afterHour) =>
                match skipSymbol ":" afterHour with
                | Some atMinute =>
                    match fixedNumber 2 atMinute with
                    | Some (minute, tail) => zone hour minute tail
                    | None => None
                    end
                | None => None
                end
            | None => None
            end
        end
      else None
  end.

(** The seconds and milliseconds that may follow the minutes, and the rest of
    the text; [None] when a [:] or a [.] is not followed by its number, or
    when the hour is 24 and they are not zero. *)
Definition parseSeconds (hourIs24 : bool) (s : string) : option (Z * Z * string) :=
  match skipSymbol ":" s with
  | None => Some (0, 0, s)
  | Some atSecond =>
      match fixedNumber 2 atSecond with
      | None => None
      | Some (second, afterSecond) =>
          if negb (second <=? 59) || (hourIs24 && (0 <? second)) then None
          else
            match skipSymbol "." afterSecond with
            | None => Some (second, 0, afterSecond)
            | Some atFraction =>
                let '(digits, tail) := digitRun atFraction in
                if (String.length digits =? 0)%nat
                   || (hourIs24 && (0 <? readUnsignedNumeral digits))
                then None
                else Some (second, readMilliseconds digits, tail)
            end
      end
  end.

(** The time of day of the text after the [T], in milliseconds, with the
    offset of its zone designator if it has one; [None] when the text makes
    the date an Invalid Date. *)
Definition parseTimeOfDay (s : string) : option (Z * option Z) :=
  match fixedNumber 2 s with
  | None => None
  | Some (hour, afterHour) =>
      if negb (hour <=? 24) then None
      else
        let hourIs24 := hour =? 24 in
        match skipSymbol ":" afterHour with
        | None => None
        | Some atMinute =>
            match fixedNumber 2 atMinute with
            | None => None
            | Some (minute, afterMinute) =>
                if negb (minute <=? 59) || (hourIs24 && (0 <? minute)) then None
                else
                  match parseSeconds hourIs24 afterMinute with
                  | None => None
                  | Some (second, ms, atZone) =>
                      match parseZone atZone with
                      | None => None
                      | Some zone =>
                          Some (((hour * 60 + minute) * 60 + second) * 1000 + ms, zone)
                      end
                  end
            end
        end
  end.

(** [new Date(`${booking.appointmentDate.toISOString().split('T')[0]}T${booking.appointmentTime}`)]:
    the UTC calendar day of [appointmentDate] with the time of day
    [appointmentTime], read in the zone the text names and as local time
    when it names none; [None] is an Invalid Date. *)
Definition appointmentDateTimeOf (tz : Z) (b : Booking) : option Z :=
  match parseTimeOfDay (appointmentTime b) with
  | Some (ms, zone) =>
      Some (Clock.utcDay (appointmentDate b) * Clock.msPerDay + ms - default tz zone)
  | None => None
  end.

(** [now] is the reading compared with the window, [checkInTime] the later
    reading stored on the booking, [r] the random draw of the OTP. *)
Definition checkin (tz : Z) (caller : string) (now checkInTime : Z) (r : Q) (id : string)
    (db : Store) : Response * Store :=
  match db !! id with
  | None => (fail 404 "Booking not found", db)
  | Some booking =>
      if negb (String.eqb (user booking) caller) then (fail 403 "Access denied", db)
      else if match appointmentDateTimeOf tz booking with
              | Some appointmentDateTime =>
                  let checkInStart := appointmentDateTime - 15 * 60 * 1000 in
                  let checkInEnd := appointmentDateTime + 60 * 60 * 1000 in
                  (now <? checkInStart) || (now >? checkInEnd)
              | None => false
              end
      then (fail 400 "Check-in is only available 15 minutes before to 1 hour after your appointment time", db)
      else if checkedIn booking
      then (fail 400 "You have already checked in for this appointment", db)
      else
        let otp := JS.toString (JS.randomInt 100000 900000 r) in
        saved (ok 200 "Check-in successful! OTP sent to your email.") "Failed to check in"
          (save id (booking |> set_checkedIn true
                            |> set_checkInTime (Some checkInTime)
                            |> set_checkoutOTP (Some otp)
                            |> set_status InProgress
                            |> set_checkOutEligibleTime (Some (checkInTime + 20 * 60 * 1000))
                            |> set_canCheckOut false) db) db
  end.

(** *** [POST /:id/user-checkout]

    [now] is the reading compared with the eligible time, [checkOutTime] the
    later reading stored on the booking. *)
Definition userCheckout (caller : string) (now checkOutTime : Z) (id : string) (db : Store)
  : Response * Store :=
  match db !! id with
  | None => (fail 404 "Booking not found", db)
  | Some booking =>
      if negb (String.eqb (user booking) caller) then (fail 403 "Access denied", db)
      else if negb (checkedIn booking) then (fail 400 "You must check in first", db)
      else if checkedOut booking then (fail 400 "You have already checked out", db)
      else
        match eligibleTime booking with
        | Throw _ => (fail 500 "Failed to checkout", db)
        | Return checkOutEligibleTime =>
            if now <? checkOutEligibleTime then
              let minutesLeft :=
                JS.ceil (inject_Z (checkOutEligibleTime - now) / inject_Z (1000 * 60))%Q in
              (fail 400 ("Please wait " +:+ JS.toString minutesLeft
                         +:+ " more minute(s) before checking out"), db)
            else
              saved (ok 200 "Successfully checked out! Your appointment is now complete.")
                "Failed to checkout"
                (save id (booking |> set_checkedOut true
                                  |> set_checkOutTime (Some checkOutTime)
                                  |> set_status Completed
                                  |> set_canCheckOut true
                                  |> set_checkoutOTP None) db) db
        end
  end.

(** *** [POST /:id/checkout] *)
Definition checkout (now : Z) (id : string) (otp adminId : string) (db : Store)
  : Response * Store :=
  if negb (lengthBetween 6 6 otp && negb (String.eqb adminId ""))
  then (fail 400 "Validation failed", db)
  else
    match db !! id with
    | None => (fail 404 "Booking not found", db)
    | Some booking =>
        if negb (checkedIn booking) then (fail 400 "Patient has not checked in yet", db)
        else if checkedOut booking then (fail 400 "Patient has already been checked out", db)
        else if negb (bool_decide (checkoutOTP booking = Some otp))
        then (fail 400 "Invalid OTP. Please check the OTP sent to patient email.", db)
        else
          saved (ok 200 "Patient checked out successfully!") "Failed to checkout patient"
            (save id (booking |> set_checkedOut true
                              |> set_checkOutTime (Some now)
                              |> set_status Completed
                              |> set_adminCheckout (Some adminId)
                              |> set_checkoutOTP None) db) db
    end.

(** *** [DELETE /:id] *)
Definition deleteBooking (caller : string) (id : string) (db : Store) : Response * Store :=
  match db !! id with
  | None => (fail 404 "Booking not found", db)
  | Some booking =>
      if negb (String.eqb (user booking) caller) then (fail 403 "Access denied", db)
      else if negb (bool_decide (status booking = Cancelled))
      then (fail 400 "Only cancelled appointments can be deleted", db)
      else (ok 200 "Cancelled appointment deleted successfully", delete id db)
  end.

(** *** [POST /mark-no-shows] *)
Definition markNoShows (now : Z) (db : Store) : Response * nat * Store :=
  let '(modifiedCount, db') := markNoShowAppointments now db in
  (ok 200 ("Marked " +:+ JS.toString (Z.of_nat modifiedCount) +:+ " appointments as no-show"),
   modifiedCount, db').

(** *** [PATCH /admin/:id/status] *)
Definition adminUpdateStatus (now : Z) (id : string) (newStatus : Status)
    (newNotes cancellationReason : option string) (db : Store) : Response * Store :=
  if negb (bool_decide (newStatus ∈ [Confirmed; InProgress; Completed; Cancelled; Rescheduled; NoShow])
           && optionalLength 0 1000 newNotes
           && optionalLength 5 500 cancellationReason)
  then (fail 400 "Validation failed", db)
  else
    match db !! id with
    | None => (fail 404 "Booking not found", db)
    | Some booking =>
        let done := ok 200 ("Booking " +:+ statusName newStatus +:+ " successfully") in
        let failed := "Failed to update booking status" in
        if bool_decide (newStatus = Cancelled) then
          match cancellationReason with
          | None => (fail 400 "Cancellation reason is required", db)
          | Some reason => saved done failed (cancelBooking reason now id booking db) db
          end
        else if bool_decide (newStatus = NoShow) then
          saved done failed (markAsNoShow now id booking db) db
        else if bool_decide (newStatus = Completed) then
          saved done failed (completeBooking id booking db) db
        else
          let booking' := booking |> set_status newStatus in
          let booking'' :=
            match newNotes with
            | Some n => if String.eqb n "" then booking' else booking' |> set_notes (Some n)
            | None => booking'
            end in
          saved done failed (save id booking'' db) db
    end.

(** *** [PATCH /admin/bulk-update] *)

Inductive BulkAction := BulkCancel | BulkConfirm | BulkReschedule | BulkNoShow.

(** The optional [data] object.  [bulkDate] is [None] when
    [data?.appointmentDate] is falsy and otherwise holds the time value of
    [new Date(data.appointmentDate)]. *)
Record BulkData := mkBulkData {
  bulkReason : option string;
  bulkDate : option (option Z);
  bulkTime : option string
}.

Definition truthy (s : option string) : option string :=
  match s with
  | Some x => if String.eqb x "" then None else Some x
  | None => None
  end.

Definition actionName (a : BulkAction) : string :=
  match a with
  | BulkCancel => "cancel"
  | BulkConfirm => "confirm"
  | BulkReschedule => "reschedule"
  | BulkNoShow => "no-show"
  end.

(** One iteration of the loop: the entry pushed to [results] and the store. *)
Definition bulkUpdateOne (action : BulkAction) (data : BulkData) (now : Z) (bookingId : string)
    (db : Store) : (string * bool * string) * Store :=
  match db !! bookingId with
  | None => ((bookingId, false, "Booking not found"), db)
  | Some booking =>
      let finish (r : Exn Store) :=
        match r with
        | Return db' => ((bookingId, true, actionName action +:+ " successful"), db')
        | Throw msg => ((bookingId, false, msg), db)
        end in
      match action with
      | BulkCancel =>
          finish (cancelBooking (default "Cancelled by admin" (truthy (bulkReason data)))
                    now bookingId booking db)
      | BulkConfirm => finish (save bookingId (booking |> set_status Confirmed) db)
      | BulkNoShow => finish (markAsNoShow now bookingId booking db)
      | BulkReschedule =>
          if bool_decide (status booking ∈ [Completed; Cancelled; NoShow])
          then ((bookingId, false,
                 "Cannot reschedule " +:+ statusName (status booking) +:+ " appointments"), db)
          else if rescheduleCount booking >=? 1
          then ((bookingId, false, "Appointment can only be rescheduled once"), db)
          else
            match bulkDate data, truthy (bulkTime data) with
            | Some newDate, Some newTime =>
                finish (rescheduleBooking newDate newTime now bookingId booking db)
            | _, _ => ((bookingId, false, "Date and time required for reschedule"), db)
            end
      end
  end.

(** The loop over [bookingIds]; every iteration reads the clock as [now]. *)
Fixpoint bulkUpdateLoop (action : BulkAction) (data : BulkData) (now : Z)
    (bookingIds : list string) (db : Store) : list (string * bool * string) * Store :=
  match bookingIds with
  | [] => ([], db)
  | bookingId :: rest =>
      let '(entry, db') := bulkUpdateOne action data now bookingId db in
      let '(results, db'') := bulkUpdateLoop action data now rest db' in
      (entry :: results, db'')
  end.

Definition adminBulkUpdate (action : BulkAction) (data : BulkData) (now : Z)
    (bookingIds : list string) (db : Store)
  : Response * list (string * bool * string) * Store :=
  match bookingIds with
  | [] => (fail 400 "Validation failed", [], db)
  | _ =>
      let '(results, db') := bulkUpdateLoop action data now bookingIds db in
      (ok 200 "Bulk operation completed", results, db')
  end.

(** *** [PATCH /admin/:id/payment] *)

Definition paymentStatusName (s : PaymentStatus) : string :=
  match s with
  | PaymentPending => "pending"
  | Paid => "paid"
  | Partial => "partial"
  | Failed => "failed"
  | Refunded => "refunded"
  end.

Definition adminUpdatePayment (now : Z) (id : string) (newStatus : PaymentStatus) (db : Store)
  : Response * Store :=
  if negb (bool_decide (newStatus ∈ [PaymentPending; Paid; Partial; Refunded]))
  then (fail 400 "Validation failed", db)
  else
    match db !! id with
    | None => (fail 404 "Booking not found", db)
    | Some booking =>
        let booking' := booking |> set_paymentStatus newStatus
                                |> set_paymentUpdatedAt (Some now) in
        let booking'' :=
          if bool_decide (newStatus = Paid) && bool_decide (status booking' = Completed)
          then booking' |> set_fullyProcessed true
          else booking' in
        saved (ok 200 ("Payment status updated to " +:+ paymentStatusName newStatus))
          "Failed to update payment status"
          (save id booking'' db) db
    end.

(** *** [POST /admin/send-reminders] and [POST /send-reminders]

    [emailOk] tells whether the reminder email of a booking could be sent.
    Both routes only append to [remindersSent]. *)
Inductive ReminderKind := RemindSms | RemindEmail | RemindBoth.

Definition remindOne (emailOk : string → bool) (kind : ReminderKind) (now : Z)
    (bookingId : string) (db : Store) : Store :=
  match db !! bookingId with
  | None => db
  | Some booking =>
      let emailed := match kind with RemindSms => false | _ => true end in
      if emailed && negb (emailOk bookingId) then db
      else
        let first := mkReminder (match kind with RemindSms => Sms | _ => Email end) now Sent in
        let pushed :=
          match kind with
          | RemindBoth => (remindersSent booking ++ [first; mkReminder Sms now Sent])%list
          | _ => (remindersSent booking ++ [first])%list
          end in
        match save bookingId (booking |> set_remindersSent pushed) db with
        | Return db' => db'
        | Throw _ => db
        end
  end.

Definition sendReminders (emailOk : string → bool) (kind : ReminderKind) (now : Z)
    (bookingIds : list string) (db : Store) : Store :=
  foldl (λ acc bookingId, remindOne emailOk kind now bookingId acc) db bookingIds.

(** ** The operations that write the booking collection *)

Inductive Operation :=
  | OpGetBookingById (caller : string) (now : Z) (id : string)
  | OpCreateBooking (tz : Z) (catalogue : Catalogue) (caller : string) (now : Z)
      (istDate saveDate : CalendarDate) (r1 r2 : Q) (newId : string) (req : CreateRequest)
  | OpUpdateBookingStatus (caller : string) (now : Z) (id : string) (newStatus : Status)
      (cancellationReason : option string)
  | OpReschedule (caller : string) (now now2 : Z) (id : string) (newDate : option Z)
      (newTime : string)
  | OpAddFeedback (caller : string) (now : Z) (id : string) (rating : Z)
      (feedback : option string)
  | OpCancel (caller : string) (id : string)
  | OpRate (caller : string) (id : string) (rating : Z) (comment : option string)
  | OpCheckin (tz : Z) (caller : string) (now checkInTime : Z) (r : Q) (id : string)
  | OpUserCheckout (caller : string) (now checkOutTime : Z) (id : string)
  | OpCheckout (now : Z) (id : string) (otp adminId : string)
  | OpDeleteBooking (caller : string) (id : string)
  | OpMarkNoShows (now : Z)
  | OpAdminUpdateStatus (now : Z) (id : string) (newStatus : Status)
      (newNotes cancellationReason : option string)
  | OpAdminBulkUpdate (action : BulkAction) (data : BulkData) (now : Z)
      (bookingIds : list string)
  | OpAdminUpdatePayment (now : Z) (id : string) (newStatus : PaymentStatus)
  | OpSendReminders (emailOk : string → bool) (kind : ReminderKind) (now : Z)
      (bookingIds : list string).

(** The collection after an operation. *)
Definition run (op : Operation) (db : Store) : Store :=
  match op with
  | OpGetBookingById caller now id => (getBookingById caller now id db).2
  | OpCreateBooking tz catalogue caller now istDate saveDate r1 r2 newId req =>
      (createBooking tz catalogue caller now istDate saveDate r1 r2 newId req db).2
  | OpUpdateBookingStatus caller now id newStatus reason =>
      (updateBookingStatus caller now id newStatus reason db).2
  | OpReschedule caller now now2 id newDate newTime =>
      (reschedule caller now now2 id newDate newTime db).2
  | OpAddFeedback caller now id rating feedback =>
      (addFeedbackRoute caller now id rating feedback db).2
  | OpCancel caller id => (cancel caller id db).2
  | OpRate caller id rating comment => (rate caller id rating comment db).2
  | OpCheckin tz caller now checkInTime r id => (checkin tz caller now checkInTime r id db).2
  | OpUserCheckout caller now checkOutTime id => (userCheckout caller now checkOutTime id db).2
  | OpCheckout now id otp adminId => (checkout now id otp adminId db).2
  | OpDeleteBooking caller id => (deleteBooking caller id db).2
  | OpMarkNoShows now => (markNoShows now db).2
  | OpAdminUpdateStatus now id newStatus newNotes reason =>
      (adminUpdateStatus now id newStatus newNotes reason db).2
  | OpAdminBulkUpdate action data now bookingIds =>
      (adminBulkUpdate action data now bookingIds db).2
  | OpAdminUpdatePayment now id newStatus => (adminUpdatePayment now id newStatus db).2
  | OpSendReminders emailOk kind now bookingIds => sendReminders emailOk kind now bookingIds db
  end.

(** ** Vocabulary of the specification *)

(** Fixed-width decimal numerals. *)
Definition digits1 (n : Z) : string := String (JS.digitChar n) EmptyString.
Definition digits2 (n : Z) : string :=
  String (JS.digitChar (n / 10)) (digits1 (n mod 10)).
Definition digits4 (n : Z) : string :=
  String (JS.digitChar (n / 1000)) (String (JS.digitChar (n / 100 mod 10)) (digits2 (n mod 100))).
Definition digits6 (n : Z) : string :=
  String (JS.digitChar (n / 100000))
    (String (JS.digitChar (n / 10000 mod 10)) (digits4 (n mod 10000))).

(** A date as [YYYYMMDD], the month counted from 1. *)
Definition YYYYMMDD (year month day : Z) : string :=
  digits4 year +:+ digits2 month +:+ digits2 day.

(** A text of exactly [n] decimal digits. *)
Definition numeric (n : nat) (s : string) : Prop :=
  String.length s = n ∧ Forall (λ c, isDigit c = true) (list_ascii_of_string s).

(** The calendar fields a [Date] can report for a year of four digits. *)
Definition fourDigitYear (d : CalendarDate) : Prop :=
  1000 <= getFullYear d <= 9999 ∧ 0 <= getMonth d <= 11 ∧ 1 <= getDate d <= 31.

(** A value [Math.random()] can return. *)
Definition unitInterval (r : Q) : Prop := (0 <= r)%Q ∧ (r < 1)%Q.

Definition terminal (s : Status) : Prop := s = Completed ∨ s = Cancelled ∨ s = NoShow.

(** The guard of the no-show sweep. *)
Definition noShowGuard (now : Z) (b : Booking) : Prop :=
  status b = Confirmed ∧ appointmentDate b < now - 30 * Clock.msPerMinute ∧ checkedIn b ≠ true.

(** A time value on the local calendar day that a day-availability query for
    [date] looks at: from its local midnight up to, and not including, its
    last millisecond 23:59:59.999. *)
Definition onQueriedDay (tz date t : Z) : Prop :=
  Clock.startOfLocalDay tz date <= t < Clock.startOfLocalDay tz date + (Clock.msPerDay - 1).

(** The statuses that occupy a slot. *)
Definition occupying (s : Status) : Prop := s = Pending ∨ s = Confirmed ∨ s = InProgress.

(** The text of the slot that starts at [hour] o'clock. *)
Definition slotAt (hour : Z) : string := digits2 hour +:+ ":00".

(** Whole minutes still to wait, rounded up. *)
Definition minutesRemaining (until now : Z) : Z := (until - now + 59999) / 60000.

(** What check-in leaves on a booking: its check-in time and, as checkout
    eligible time, that time plus 20 minutes. *)
Definition checkedInShape (_ : string) (b : Booking) : Prop :=
  checkedIn b = true ->
  exists t, checkInTime b = Some t
            /\ checkOutEligibleTime b = Some (t + 20 * Clock.msPerMinute).

(** The status of the booking [id] is [s]. *)
Definition statusKept (id : string) (s : Status) (k : string) (b : Booking) : Prop :=
  k = id -> status b = s.

(** A document that passes the validators of the schema. *)
Definition schemaValid (_ : string) (b : Booking) : Prop := validate b = true.

(** The guard of the sweep is decidable. *)
#[local] Instance noShowGuard_dec now b : Decision (noShowGuard now b).
Proof. unfold noShowGuard. apply _. Defined.

(** The bound of the reschedule-once rule. *)
Definition onceOnly (_ : string) (b : Booking) : Prop := rescheduleCount b <= 1.

(** The collection after a sequence of operations. *)
Definition runAll (ops : list Operation) (db : Store) : Store :=
  foldl (λ acc op, run op acc) db ops.

(** The operations that leave the status [s] of a terminal booking as it is:
    those that never write [status], those whose guard excludes every
    terminal status, and a reschedule unless the status is no-show. *)
Definition keepsTerminal (op : Operation) (s : Status) : bool :=
  match op with
  | OpGetBookingById _ _ _ | OpCreateBooking _ _ _ _ _ _ _ _ _ _
  | OpAddFeedback _ _ _ _ _ | OpCancel _ _ | OpRate _ _ _ _ | OpDeleteBooking _ _
  | OpMarkNoShows _ | OpAdminUpdatePayment _ _ _ | OpSendReminders _ _ _ _ => true
  | OpReschedule _ _ _ _ _ _ => negb (bool_decide (s = NoShow))
  | _ => false
  end.

(** [b'] is [b] in every path but [canCheckOut]. *)
Definition sameButCanCheckOut (b b' : Booking) : Prop :=
  user b' = user b ∧ personalDetails b' = personalDetails b ∧ treatment b' = treatment b ∧
  treatmentDetails b' = treatmentDetails b ∧ location b' = location b ∧
  appointmentDate b' = appointmentDate b ∧ appointmentTime b' = appointmentTime b ∧
  status b' = status b ∧ paymentStatus b' = paymentStatus b ∧
  paymentMethod b' = paymentMethod b ∧ totalAmount b' = totalAmount b ∧
  paymentUpdatedAt b' = paymentUpdatedAt b ∧ fullyProcessed b' = fullyProcessed b ∧
  specialRequests b' = specialRequests b ∧ notes b' = notes b ∧
  bookingReference b' = bookingReference b ∧ cancellationReason b' = cancellationReason b ∧
  cancelledAt b' = cancelledAt b ∧ rescheduledFrom b' = rescheduledFrom b ∧
  rescheduledAt b' = rescheduledAt b ∧ rescheduleCount b' = rescheduleCount b ∧
  noShowMarkedAt b' = noShowMarkedAt b ∧ rating b' = rating b ∧
  ratingComment b' = ratingComment b ∧ feedback b' = feedback b ∧
  feedbackDate b' = feedbackDate b ∧ assignedStaff b' = assignedStaff b ∧
  checkedIn b' = checkedIn b ∧ checkInTime b' = checkInTime b ∧ checkoutOTP b' = checkoutOTP b ∧
  checkedOut b' = checkedOut b ∧ checkOutTime b' = checkOutTime b ∧
  adminCheckout b' = adminCheckout b ∧ checkOutEligibleTime b' = checkOutEligibleTime b ∧
  prescription b' = prescription b ∧ remindersSent b' = remindersSent b.

(** ** Sample data *)

Definition sampleTreatment : TreatmentDetails :=
  mkTreatmentDetails "HydraFacial" "Facials" 4500 "Rs 4,500" 60 "60 min".

(** A booking made for 15 January 2030, 14:00 in Asia/Kolkata
    (08:30 UTC, time value 1894696200000). *)
Definition sampleBooking : Booking :=
  newBooking "user-1"
    (mkCreateRequest "treatment-1" (mkPersonalDetails "Asha Rao" "919876543210" "asha@example.com")
       Kokapet 1894696200000 "14:00" None None)
    (mkTreatment sampleTreatment true [Kokapet; Kondapur])
    "ZEN203001101234".

Definition IST : Z := 19800000.

Definition sampleStore : Store := {[ "booking-1" := sampleBooking ]}.

(** The same booking once checked in at 13:50 with OTP 482913. *)
Definition checkedInBooking : Booking :=
  sampleBooking |> set_checkedIn true
                |> set_checkInTime (Some 1894695600000)
                |> set_checkoutOTP (Some "482913")
                |> set_status InProgress
                |> set_checkOutEligibleTime (Some 1894696800000)
                |> set_canCheckOut false.

Definition checkedInStore : Store := {[ "booking-1" := checkedInBooking ]}.

(** The same booking after one reschedule, and after completion. *)
Definition rescheduledBooking : Booking :=
  sampleBooking |> set_status Rescheduled |> set_rescheduleCount 1.

Definition completedBooking : Booking := sampleBooking |> set_status Completed.

Definition rescheduledStore : Store := {[ "booking-1" := rescheduledBooking ]}.
Definition completedStore : Store := {[ "booking-1" := completedBooking ]}.

(** The answer to a query for the day of the sample booking, asked on
    10 January 2030, 09:00 in Asia/Kolkata. *)
Definition sampleAvailability : Availability :=
  let slots := ["10:00"; "11:00"; "12:00"; "13:00"; "14:00";
                "15:00"; "16:00"; "17:00"; "18:00"; "19:00"] in
  mkAvailability
    ["10:00"; "11:00"; "12:00"; "13:00"; "15:00"; "16:00"; "17:00"; "18:00"; "19:00"]
    ["14:00"]
    ((λ slot, mkSlotDetail slot (negb (String.eqb slot "14:00")) (String.eqb slot "14:00") false)
       <$> slots)
    10 9 false.

(** The catalogue that offers the sample treatment. *)
Definition sampleCatalogue : Catalogue :=
  {[ "treatment-1" := mkTreatment sampleTreatment true [Kokapet; Kondapur] ]}.

(** A request for 15 January 2030 at nine in the morning, the hour written
    with one digit, as the pattern of the create route allows; its date is
    [new Date(2030, 0, 15, 9, 0)] in Asia/Kolkata. *)
Definition oneDigitHourRequest : CreateRequest :=
  mkCreateRequest "treatment-1" (mkPersonalDetails "Asha Rao" "919876543210" "asha@example.com")
    Kokapet 1894678200000 "9:00" None None.

(** The create route serving that request on 10 January 2030 at 09:00, on an
    empty collection. *)
Definition oneDigitHourCreated : Response * Store :=
  createBooking IST sampleCatalogue "user-1" 1894246200000 (mkCalendarDate 2030 0 10)
    (mkCalendarDate 2030 0 10) (1234 # 10000) (5678 # 10000) "booking-2"
    oneDigitHourRequest ∅.

(** * Properties *)

(** ** JavaScript runtime functions *)

Lemma fuel_enough (k : Z) (n : Z) :
  2 ^ k <= n -> 0 <= k -> (Z.to_nat k < S (Z.to_nat (Z.log2 n)))%nat.
Proof.
  intros Hn Hk.
  assert (k <= Z.log2 n).
  { rewrite <- (Z.log2_pow2 k) by lia. apply Z.log2_le_mono. lia. }
  lia.
Qed.

Lemma digitsOf_lt10 fuel n acc :
  (1 <= fuel)%nat -> 0 <= n < 10 ->
  JS.digitsOf fuel n acc = String (JS.digitChar n) acc.
Proof.
  intros Hf Hn. destruct fuel as [|k]; [lia|]. simpl.
  destruct (Z.ltb_spec n 10); [|lia].
  rewrite Z.mod_small by lia. reflexivity.
Qed.

Lemma digitsOf_step fuel n acc :
  10 <= n ->
  JS.digitsOf (S fuel) n acc = JS.digitsOf fuel (n / 10) (String (JS.digitChar (n mod 10)) acc).
Proof.
  intros Hn. simpl. destruct (Z.ltb_spec n 10); [lia|]. reflexivity.
Qed.

Lemma toString_nonneg n :
  0 <= n -> JS.toString n = JS.digitsOf (S (Z.to_nat (Z.log2 n))) n EmptyString.
Proof. intros H. unfold JS.toString. destruct (Z.ltb_spec n 0); [lia|]. reflexivity. Qed.

Lemma toString_1 n : 0 <= n <= 9 -> JS.toString n = digits1 n.
Proof.
  intros H. rewrite toString_nonneg by lia.
  apply digitsOf_lt10; lia.
Qed.

Ltac divlia := Z.div_mod_to_equations; lia.

Lemma toString_2 n : 10 <= n <= 99 -> JS.toString n = digits2 n.
Proof.
  intros H. rewrite toString_nonneg by lia.
  pose proof (fuel_enough 3 n ltac:(simpl; lia) ltac:(lia)) as Hf.
  destruct (Z.to_nat (Z.log2 n)) as [|f]; [simpl in Hf; lia|].
  rewrite digitsOf_step by lia.
  rewrite digitsOf_lt10; [reflexivity | lia | divlia].
Qed.

Lemma toString_4 n : 1000 <= n <= 9999 -> JS.toString n = digits4 n.
Proof.
  intros H. rewrite toString_nonneg by lia.
  pose proof (fuel_enough 9 n ltac:(simpl; lia) ltac:(lia)) as Hf.
  destruct (Z.to_nat (Z.log2 n)) as [|[|[|f]]]; try (simpl in Hf; lia).
  do 3 (rewrite digitsOf_step by divlia).
  rewrite digitsOf_lt10 by (try lia; divlia).
  unfold digits4, digits2, digits1.
  replace (n / 10 / 10 / 10) with (n / 1000) by divlia.
  replace (n / 10 / 10 mod 10) with (n / 100 mod 10) by divlia.
  replace (n mod 100 / 10) with (n / 10 mod 10) by divlia.
  replace (n mod 100 mod 10) with (n mod 10) by divlia.
  reflexivity.
Qed.

Lemma toString_6 n : 100000 <= n <= 999999 -> JS.toString n = digits6 n.
Proof.
  intros H. rewrite toString_nonneg by lia.
  pose proof (fuel_enough 16 n ltac:(simpl; lia) ltac:(lia)) as Hf.
  destruct (Z.to_nat (Z.log2 n)) as [|[|[|[|[|f]]]]]; try (simpl in Hf; lia).
  do 5 (rewrite digitsOf_step by divlia).
  rewrite digitsOf_lt10 by (try lia; divlia).
  unfold digits6, digits4, digits2, digits1.
  replace (n / 10 / 10 / 10 / 10 / 10) with (n / 100000) by divlia.
  replace (n / 10 / 10 / 10 / 10 mod 10) with (n / 10000 mod 10) by divlia.
  replace (n / 10 / 10 / 10 mod 10) with (n mod 10000 / 1000) by divlia.
  replace (n / 10 / 10 mod 10) with (n mod 10000 / 100 mod 10) by divlia.
  replace (n / 10 mod 10) with (n mod 10000 mod 100 / 10) by divlia.
  replace (n mod 10) with (n mod 10000 mod 100 mod 10) at 1 by divlia.
  reflexivity.
Qed.

Lemma randomInt_range lo span r :
  0 < span -> (0 <= r)%Q -> (r < 1)%Q ->
  lo <= JS.randomInt lo span r <= lo + span - 1.
Proof.
  intros Hs H0 H1. unfold JS.randomInt, JS.floor.
  set (x := (inject_Z lo + r * inject_Z span)%Q).
  assert (Hlo : (inject_Z lo <= x)%Q).
  { unfold x. rewrite <- (Qplus_0_r (inject_Z lo)) at 1.
    apply Qplus_le_r. apply Qmult_le_0_compat; [assumption|].
    change 0%Q with (inject_Z 0). rewrite <- Zle_Qle. lia. }
  assert (Hhi : (x < inject_Z (lo + span))%Q).
  { unfold x. rewrite inject_Z_plus. apply Qplus_lt_r.
    rewrite <- (Qmult_1_l (inject_Z span)) at 2.
    apply Qmult_lt_compat_r; [|assumption].
    change 0%Q with (inject_Z 0). rewrite <- Zlt_Qlt. lia. }
  split.
  - rewrite <- (Qfloor_Z lo). apply Qfloor_resp_le. exact Hlo.
  - assert (inject_Z (Qfloor x) < inject_Z (lo + span))%Q
      by (eapply Qle_lt_trans; [apply Qfloor_le | exact Hhi]).
    rewrite <- Zlt_Qlt in H. lia.
Qed.

(** ** Booking reference *)

Lemma dateStr_YYYYMMDD d :
  fourDigitYear d -> dateStr d = YYYYMMDD (getFullYear d) (getMonth d + 1) (getDate d).
Proof.
  intros (Hy & Hm & Hd). unfold dateStr, YYYYMMDD.
  rewrite toString_4 by lia.
  assert (Hpad : forall n, 1 <= n <= 31 -> JS.padStart (JS.toString n) 2 "0" = digits2 n).
  { intros n Hn. destruct (Z_lt_le_dec n 10).
    - rewrite toString_1 by lia. unfold digits2, digits1. cbn.
      replace (n / 10) with 0 by divlia. replace (n mod 10) with n by divlia. reflexivity.
    - rewrite toString_2 by lia. reflexivity. }
  rewrite !Hpad by lia. reflexivity.
Qed.

Lemma generateReference_format d r :
  fourDigitYear d -> unitInterval r ->
  exists suffix, 1000 <= suffix <= 9999 /\
    generateReference d r
    = "ZEN" +:+ YYYYMMDD (getFullYear d) (getMonth d + 1) (getDate d) +:+ digits4 suffix.
Proof.
  intros Hd [H0 H1]. exists (JS.randomInt 1000 9000 r).
  pose proof (randomInt_range 1000 9000 r ltac:(lia) H0 H1) as Hr.
  split; [lia|]. unfold generateReference.
  rewrite dateStr_YYYYMMDD by assumption. rewrite toString_4 by lia. reflexivity.
Qed.

Lemma createBooking_stores tz catalogue caller now istDate saveDate r1 r2 newId req db :
  success (createBooking tz catalogue caller now istDate saveDate r1 r2 newId req db).1 = true ->
  exists b,
    (createBooking tz catalogue caller now istDate saveDate r1 r2 newId req db).2
      = <[newId := b]> db
    /\ db !! newId = None
    /\ bookingReference b = generateReference saveDate r2
    /\ status b = Confirmed /\ rescheduleCount b = 0.
Proof.
  unfold createBooking, saved, saveNew, preSave.
  repeat case_match; simpl; try discriminate; intros _.
  simplify_eq. eexists; split; [reflexivity|].
  split; [|simpl; auto].
  match goal with
  | H : _ || _ = false |- _ =>
      apply orb_false_iff in H as [_ H]; apply bool_decide_eq_false in H;
      destruct (db !! newId); [exfalso; eauto | reflexivity]
  end.
Qed.

Lemma isDigit_digitChar d : 0 <= d <= 9 -> isDigit (JS.digitChar d) = true.
Proof.
  intros H.
  assert (d = 0 \/ d = 1 \/ d = 2 \/ d = 3 \/ d = 4 \/ d = 5 \/ d = 6 \/ d = 7 \/ d = 8 \/ d = 9)
    as Hd by lia.
  repeat destruct Hd as [-> | Hd]; try subst d; reflexivity.
Qed.

Lemma numeric_digits2 n : 0 <= n <= 99 -> numeric 2 (digits2 n).
Proof.
  intros H. split; [reflexivity|]. unfold digits2, digits1. cbn.
  repeat constructor; apply isDigit_digitChar; divlia.
Qed.

Lemma numeric_digits4 n : 0 <= n <= 9999 -> numeric 4 (digits4 n).
Proof.
  intros H. split; [reflexivity|]. unfold digits4, digits2, digits1. cbn.
  repeat constructor; apply isDigit_digitChar; divlia.
Qed.

Lemma numeric_digits6 n : 0 <= n <= 999999 -> numeric 6 (digits6 n).
Proof.
  intros H. split; [reflexivity|]. unfold digits6, digits4, digits2, digits1. cbn.
  repeat constructor; apply isDigit_digitChar; divlia.
Qed.

Lemma length_app_string s t :
  String.length (s +:+ t) = (String.length s + String.length t)%nat.
Proof. induction s as [|c s IH]; simpl; [reflexivity | f_equal; exact IH]. Qed.

Lemma numeric_app m n s t : numeric m s -> numeric n t -> numeric (m + n) (s +:+ t).
Proof.
  intros [Hs1 Hs2] [Ht1 Ht2]. split.
  - rewrite length_app_string. congruence.
  - clear Hs1 Ht1. induction s as [|c s IH]; simpl; [assumption|].
    simpl in Hs2. inversion Hs2; subst. constructor; auto.
Qed.

(** C9: a reference is "ZEN", the date as YYYYMMDD and four digits between
    1000 and 9999, whatever the random draw; a booking that is created carries
    the reference its pre-save hook generates from the server's local date. *)
Theorem bookingReference_is_ZEN_date_suffix d r :
  fourDigitYear d -> unitInterval r ->
  (exists suffix, 1000 <= suffix <= 9999 /\
     generateReference d r
     = "ZEN" +:+ YYYYMMDD (getFullYear d) (getMonth d + 1) (getDate d) +:+ digits4 suffix
     /\ numeric 12 (YYYYMMDD (getFullYear d) (getMonth d + 1) (getDate d) +:+ digits4 suffix))
  /\ forall tz catalogue caller now istDate r1 newId req db,
       let result := createBooking tz catalogue caller now istDate d r1 r newId req db in
       success result.1 = true ->
       exists b, result.2 !! newId = Some b /\ db !! newId = None
                 /\ bookingReference b = generateReference d r.
Proof.
  intros Hd Hr. split.
  - destruct (generateReference_format d r Hd Hr) as (suffix & Hs & Heq).
    exists suffix. split; [assumption|]. split; [assumption|].
    destruct Hd as (Hy & Hm & Hday). unfold YYYYMMDD.
    apply (numeric_app 8 4); [|apply numeric_digits4; lia].
    apply (numeric_app 4 4); [apply numeric_digits4; lia|].
    apply (numeric_app 2 2); apply numeric_digits2; lia.
  - intros tz catalogue caller now istDate r1 newId req db result Hok.
    destruct (createBooking_stores _ _ _ _ _ _ _ _ _ _ _ Hok) as (b & Hdb & Hnone & Href & _).
    exists b. subst result. rewrite Hdb, lookup_insert_eq. auto.
Qed.

(** ** No-show sweep *)

Lemma noShowFilter_guard now b :
  noShowFilter (now - 30 * 60 * 1000) b = true <-> noShowGuard now b.
Proof.
  unfold noShowFilter, noShowGuard.
  rewrite !andb_true_iff, bool_decide_eq_true, Z.ltb_lt, negb_true_iff.
  change Clock.msPerMinute with 60000.
  destruct (checkedIn b); intuition (try discriminate; try lia).
Qed.

Lemma noShowFilter_update cutoff now b :
  noShowFilter cutoff (noShowUpdate now b) = false.
Proof. reflexivity. Qed.

Lemma filter_none {A} (P : A -> Prop) `{!forall x, Decision (P x)} (l : list A) :
  Forall (fun x => ~ P x) l -> filter P l = [].
Proof.
  induction 1 as [|x l Hx _ IH]; [reflexivity|].
  rewrite filter_cons_False by assumption. exact IH.
Qed.

Lemma sweep_lookup now db id :
  (markNoShowAppointments now db).2 !! id
  = (fun b => if noShowFilter (now - 30 * 60 * 1000) b then noShowUpdate now b else b)
      <$> db !! id.
Proof. unfold markNoShowAppointments. simpl. apply lookup_fmap. Qed.

(** C7: the sweep marks exactly the confirmed bookings whose appointment date
    is before now minus 30 minutes and that are not checked in, stamping
    [noShowMarkedAt]; run again at the same clock reading it modifies
    nothing. *)
Theorem noShowSweep_exact_and_idempotent now db :
  let result := markNoShowAppointments now db in
  (forall id b, db !! id = Some b ->
     (noShowGuard now b ->
        result.2 !! id = Some (noShowUpdate now b)
        /\ status (noShowUpdate now b) = NoShow
        /\ noShowMarkedAt (noShowUpdate now b) = Some now)
     /\ (~ noShowGuard now b -> result.2 !! id = Some b))
  /\ (forall id, db !! id = None -> result.2 !! id = None)
  /\ result.1 = length (filter (fun kb => noShowGuard now kb.2) (map_to_list db))
  /\ markNoShowAppointments now result.2 = (0%nat, result.2).
Proof.
  intros result. subst result. split; [|split; [|split]].
  - intros id b Hb. split.
    + intros Hg. split; [|split; reflexivity].
      rewrite sweep_lookup, Hb. cbn [fmap option_fmap option_map].
      apply noShowFilter_guard in Hg. rewrite Hg. reflexivity.
    + intros Hn. rewrite sweep_lookup, Hb. cbn [fmap option_fmap option_map].
      destruct (noShowFilter _ b) eqn:E; [|reflexivity].
      apply noShowFilter_guard in E. contradiction.
  - intros id Hnone. rewrite sweep_lookup, Hnone. reflexivity.
  - unfold markNoShowAppointments. simpl. f_equal.
    apply list_filter_iff. intros [k b]. simpl. apply noShowFilter_guard.
  - unfold markNoShowAppointments. simpl. f_equal.
    + match goal with |- length ?l = _ => replace l with (@nil (string * Booking)) end;
        [reflexivity|].
      symmetry. apply filter_none. apply Forall_forall. intros [k b] Hin. simpl.
      apply elem_of_map_to_list in Hin. rewrite lookup_fmap in Hin.
      destruct (db !! k) as [b0|]; [|discriminate]. simpl in Hin. injection Hin as <-.
      destruct (noShowFilter _ b0) eqn:E; [rewrite noShowFilter_update; discriminate|].
      rewrite E. discriminate.
    + rewrite <- map_fmap_compose. apply map_fmap_ext. intros k b _. simpl.
      destruct (noShowFilter _ b) eqn:E; [rewrite noShowFilter_update; reflexivity|].
      rewrite E. reflexivity.
Qed.

(** A booking the sweep has marked is left alone by every later sweep. *)
Lemma noShowSweep_marked_stays now now' db id b :
  db !! id = Some b -> noShowGuard now b ->
  (markNoShowAppointments now' (markNoShowAppointments now db).2).2 !! id
  = Some (noShowUpdate now b).
Proof.
  intros Hb Hg. rewrite !sweep_lookup, Hb. cbn [fmap option_fmap option_map].
  apply noShowFilter_guard in Hg. rewrite Hg, noShowFilter_update. reflexivity.
Qed.

(** ** Day availability *)

Lemma timeSlots_eq :
  timeSlots = slotAt <$> [10; 11; 12; 13; 14; 15; 16; 17; 18; 19].
Proof. reflexivity. Qed.

Lemma slotHour_slotAt hour :
  10 <= hour <= 19 -> parseInt (beforeColon (slotAt hour)) = Some hour.
Proof.
  intros H.
  assert (hour = 10 \/ hour = 11 \/ hour = 12 \/ hour = 13 \/ hour = 14 \/ hour = 15
          \/ hour = 16 \/ hour = 17 \/ hour = 18 \/ hour = 19) as Hh by lia.
  repeat destruct Hh as [-> | Hh]; try subst hour; reflexivity.
Qed.

Lemma startOfLocalDay_idem tz t :
  Clock.startOfLocalDay tz (Clock.startOfLocalDay tz t) = Clock.startOfLocalDay tz t.
Proof.
  unfold Clock.startOfLocalDay, Clock.msOfLocalDay.
  change Clock.msPerDay with 86400000. divlia.
Qed.

Lemma localDay_endOfLocalDay tz t :
  Clock.localDay tz (Clock.endOfLocalDay tz (Clock.startOfLocalDay tz t)) = Clock.localDay tz t.
Proof.
  unfold Clock.endOfLocalDay. rewrite startOfLocalDay_idem.
  unfold Clock.localDay, Clock.startOfLocalDay, Clock.msOfLocalDay.
  change Clock.msPerDay with 86400000. divlia.
Qed.

(** The queried day is the local calendar day of the date, less its last
    millisecond. *)
Lemma onQueriedDay_localDay tz date t :
  onQueriedDay tz date t
  <-> Clock.localDay tz t = Clock.localDay tz date
      /\ Clock.msOfLocalDay tz t <> Clock.msPerDay - 1.
Proof.
  unfold onQueriedDay, Clock.localDay, Clock.startOfLocalDay, Clock.msOfLocalDay.
  change Clock.msPerDay with 86400000. split; intros H; divlia.
Qed.

Lemma availabilityFilter_spec tz date loc b :
  availabilityFilter (Clock.startOfLocalDay tz date)
    (Clock.endOfLocalDay tz (Clock.startOfLocalDay tz date)) loc b = true
  <-> location b = loc /\ onQueriedDay tz date (appointmentDate b) /\ occupying (status b).
Proof.
  unfold availabilityFilter, onQueriedDay, occupying, Clock.endOfLocalDay.
  rewrite startOfLocalDay_idem.
  rewrite !andb_true_iff, !bool_decide_eq_true, Z.leb_le, Z.ltb_lt.
  rewrite !elem_of_cons, elem_of_nil. intuition.
Qed.

Lemma isBooked_spec tz date loc (db : gmap string Booking) slot :
  existsb (fun booking => String.eqb (appointmentTime booking) slot)
    (filter (fun b => availabilityFilter (Clock.startOfLocalDay tz date)
                        (Clock.endOfLocalDay tz (Clock.startOfLocalDay tz date)) loc b = true)
       (map_to_list db).*2) = true
  <-> exists id b, db !! id = Some b /\ location b = loc
        /\ onQueriedDay tz date (appointmentDate b)
        /\ appointmentTime b = slot /\ occupying (status b).
Proof.
  rewrite existsb_exists. split.
  - intros (b & Hin & Heq). apply list_elem_of_In, list_elem_of_filter in Hin as [Hf Hin].
    apply availabilityFilter_spec in Hf as (? & ? & ?).
    apply list_elem_of_fmap in Hin as ([id b'] & -> & Hin). simpl in *.
    apply elem_of_map_to_list in Hin. apply String.eqb_eq in Heq.
    exists id, b'. auto.
  - intros (id & b & Hb & Hl & Hd & Ht & Hs). exists b. split.
    + apply list_elem_of_In, list_elem_of_filter. split.
      * apply availabilityFilter_spec. auto.
      * apply list_elem_of_fmap. exists (id, b). split; [reflexivity|].
        apply elem_of_map_to_list. assumption.
    + apply String.eqb_eq. assumption.
Qed.

Lemma getAvailability_answer tz date loc today db response a :
  getAvailability tz (Some date) loc today db = (response, Some a) ->
  let dayStart := Clock.startOfLocalDay tz date in
  let existing :=
    filter (fun b => availabilityFilter dayStart (Clock.endOfLocalDay tz dayStart) loc b = true)
      (map_to_list db).*2 in
  let isToday :=
    bool_decide (Clock.localDay tz (Clock.endOfLocalDay tz dayStart) = Clock.localDay tz today) in
  let detail := slotDetail existing isToday (Clock.getHours tz today) in
  slotDetails a = detail <$> timeSlots
  /\ availableSlots a
     = time <$> filter (fun sd => isAvailable sd = true) (detail <$> timeSlots).
Proof.
  unfold getAvailability.
  destruct (date <? Clock.startOfLocalDay tz today); [discriminate|].
  intros Heq. injection Heq as _ <-. split; reflexivity.
Qed.

(** C1: in the answer to a day-availability query, the slots are the ten
    hourly slots from 10:00 to 19:00; a slot is past exactly when the queried
    date is today and its hour is at most the current hour plus one; it is
    booked exactly when a booking at that location on the queried day has
    that [appointmentTime] and a status among pending, confirmed and
    in-progress; it is available exactly when it is neither; and
    [availableSlots] lists the available slots, so never one that a confirmed
    or in-progress booking occupies. *)
Theorem dayAvailability_slots tz date loc today db response a :
  getAvailability tz (Some date) loc today db = (response, Some a) ->
  time <$> slotDetails a = slotAt <$> [10; 11; 12; 13; 14; 15; 16; 17; 18; 19]
  /\ (forall sd, sd ∈ slotDetails a ->
        exists hour, 10 <= hour <= 19 /\ time sd = slotAt hour
          /\ (isPastTime sd = true <->
                Clock.localDay tz date = Clock.localDay tz today
                /\ hour <= Clock.getHours tz today + 1)
          /\ (isBooked sd = true <->
                exists id b, db !! id = Some b /\ location b = loc
                  /\ onQueriedDay tz date (appointmentDate b)
                  /\ appointmentTime b = time sd /\ occupying (status b))
          /\ isAvailable sd = negb (isBooked sd) && negb (isPastTime sd)
          /\ (time sd ∈ availableSlots a <-> isAvailable sd = true))
  /\ (forall id b, db !! id = Some b -> location b = loc ->
        onQueriedDay tz date (appointmentDate b) ->
        status b = Confirmed \/ status b = InProgress ->
        appointmentTime b ∉ availableSlots a).
Proof.
  intros Heq. apply getAvailability_answer in Heq. cbv zeta in Heq.
  set (dayStart := Clock.startOfLocalDay tz date) in Heq.
  set (existing := filter _ (map_to_list db).*2) in Heq.
  set (isToday := bool_decide _) in Heq.
  set (detail := slotDetail existing isToday (Clock.getHours tz today)) in Heq.
  destruct Heq as [-> ->].
  assert (Hbooked : forall slot, isBooked (detail slot) = true <->
            exists id b, db !! id = Some b /\ location b = loc
              /\ onQueriedDay tz date (appointmentDate b)
              /\ appointmentTime b = slot /\ occupying (status b))
    by (intros slot; apply isBooked_spec).
  assert (Havail : forall slot, slot ∈ time <$> filter (fun sd => isAvailable sd = true)
                                          (detail <$> timeSlots)
                                -> isAvailable (detail slot) = true).
  { intros slot Hin. apply list_elem_of_fmap in Hin as (sd & -> & Hin).
    apply list_elem_of_filter in Hin as [Hav Hin].
    apply list_elem_of_fmap in Hin as (slot' & -> & _). exact Hav. }
  split; [|split].
  - rewrite <- list_fmap_compose. rewrite timeSlots_eq. reflexivity.
  - intros sd Hin. apply list_elem_of_fmap in Hin as (slot & -> & Hin).
    rewrite timeSlots_eq in Hin. apply list_elem_of_fmap in Hin as (hour & -> & Hin).
    exists hour.
    assert (Hhour : 10 <= hour <= 19).
    { rewrite !elem_of_cons, elem_of_nil in Hin. lia. }
    split; [exact Hhour|]. split; [reflexivity|]. split; [|split; [|split]].
    + unfold detail, slotDetail. cbn [isPastTime]. rewrite slotHour_slotAt by exact Hhour.
      subst isToday. unfold dayStart. rewrite localDay_endOfLocalDay.
      case_bool_decide; [rewrite Z.leb_le; tauto | split; [discriminate | tauto]].
    + apply Hbooked.
    + reflexivity.
    + split; [apply Havail|]. intros Hav.
      apply list_elem_of_fmap. exists (detail (slotAt hour)). split; [reflexivity|].
      apply list_elem_of_filter. split; [exact Hav|].
      apply list_elem_of_fmap. exists (slotAt hour). split; [reflexivity|].
      rewrite timeSlots_eq. apply list_elem_of_fmap. eauto.
  - intros id b Hb Hl Hd Hs Hin. apply Havail in Hin.
    assert (Hbk : isBooked (detail (appointmentTime b)) = true).
    { apply Hbooked. exists id, b. unfold occupying. tauto. }
    unfold detail, slotDetail in Hin, Hbk. cbn [isAvailable isBooked] in Hin, Hbk.
    rewrite Hbk in Hin. discriminate.
Qed.

(** A query for today or a later day is answered. *)
Lemma getAvailability_succeeds tz date loc today db :
  Clock.startOfLocalDay tz today <= date ->
  exists a, getAvailability tz (Some date) loc today db
            = (ok 200 "Available time slots retrieved successfully", Some a).
Proof.
  intros H. unfold getAvailability.
  destruct (Z.ltb_spec date (Clock.startOfLocalDay tz today)); [lia|].
  eexists. reflexivity.
Qed.

(** ** Lifecycle: check-in and checkout *)

Lemma owner_passes b caller : user b = caller -> negb (String.eqb (user b) caller) = false.
Proof. intros ->. rewrite String.eqb_refl. reflexivity. Qed.

(** A valid document stays valid when a handler gives it a status of the
    schema's enum and leaves the length-limited paths alone. *)
Lemma validate_with b b' :
  validate b = true ->
  statusInEnum (status b') = true ->
  withinLimits b' = withinLimits b ->
  validate b' = true.
Proof.
  unfold validate. rewrite !andb_true_iff. intros [_ Hl] Hs Heq. rewrite Heq. auto.
Qed.

Lemma validate_same b b' :
  validate b = true ->
  status b' = status b ->
  withinLimits b' = withinLimits b ->
  validate b' = true.
Proof. unfold validate. intros H -> ->. exact H. Qed.

Ltac valid_doc :=
  match goal with
  | H : validate ?b = true |- validate _ = true =>
      first [ apply (validate_same b); [exact H | reflexivity | reflexivity]
            | apply (validate_with b); [exact H | reflexivity | reflexivity] ]
  end.

(** For a booking whose [appointmentDate] has the local time of day
    [appointmentTime] and falls on the same day in UTC as locally, the
    date-time the check-in handler computes is the [appointmentDate]. *)
Lemma appointmentDateTimeOf_same_day tz b ms :
  parseTimeOfDay (appointmentTime b) = Some (ms, None) ->
  Clock.msOfLocalDay tz (appointmentDate b) = ms ->
  Clock.utcDay (appointmentDate b) = Clock.localDay tz (appointmentDate b) ->
  appointmentDateTimeOf tz b = Some (appointmentDate b).
Proof.
  intros Hp Hm Hd. unfold appointmentDateTimeOf. rewrite Hp, Hd. f_equal.
  subst ms. cbn [default]. unfold Clock.localDay, Clock.msOfLocalDay.
  change Clock.msPerDay with 86400000. divlia.
Qed.

(** The check-in window, for a booking whose time text the engine reads: a
    confirmed booking that is not checked in is checked in exactly when the
    clock lies between 15 minutes before and 60 minutes after the date-time
    the handler computes, both ends included; a successful check-in sets
    the status to in-progress, stores a six-digit OTP, sets
    [checkOutEligibleTime] to [checkInTime] plus 20 minutes and [canCheckOut]
    to false. *)
Theorem checkin_window tz caller now checkInTime' r id db b appointmentDateTime :
  db !! id = Some b ->
  user b = caller ->
  status b = Confirmed ->
  checkedIn b = false ->
  validate b = true ->
  appointmentDateTimeOf tz b = Some appointmentDateTime ->
  unitInterval r ->
  let result := checkin tz caller now checkInTime' r id db in
  (success result.1 = true <->
     appointmentDateTime - 15 * Clock.msPerMinute <= now
     <= appointmentDateTime + 60 * Clock.msPerMinute)
  /\ (now = appointmentDateTime - 15 * Clock.msPerMinute -> success result.1 = true)
  /\ (now = appointmentDateTime - 16 * Clock.msPerMinute ->
        success result.1 = false /\ result.2 = db)
  /\ (success result.1 = true ->
        exists b' otp, result.2 = <[id := b']> db
          /\ status b' = InProgress
          /\ checkedIn b' = true
          /\ checkInTime b' = Some checkInTime'
          /\ checkoutOTP b' = Some otp /\ numeric 6 otp
          /\ checkOutEligibleTime b' = Some (checkInTime' + 20 * Clock.msPerMinute)
          /\ canCheckOut b' = false)
  /\ (success result.1 = false -> result.2 = db).
Proof.
  intros Hb Hu Hs Hc Hv Hadt [Hr0 Hr1] result. subst result.
  unfold checkin. rewrite Hb, (owner_passes _ _ Hu), Hadt, Hc.
  change Clock.msPerMinute with 60000.
  pose proof (randomInt_range 100000 900000 r ltac:(lia) Hr0 Hr1) as Hotp.
  assert (Hsave : forall b', validate b' = true ->
            save id b' db = Return (<[id := b']> db))
    by (intros b' Hv'; unfold save; rewrite Hv'; reflexivity).
  destruct (Z.ltb_spec now (appointmentDateTime - 15 * 60 * 1000));
    destruct (Z.gtb_spec now (appointmentDateTime + 60 * 60 * 1000));
    cbn [orb];
    try (cbn [fst snd success fail];
         repeat split; intros; try discriminate; try reflexivity; lia).
  rewrite Hsave by valid_doc. cbn [saved fst snd success ok].
  split; [split; intros; [lia | reflexivity]|].
  split; [reflexivity|]. split; [intros; lia|]. split; [|discriminate].
  intros _. eexists _, (JS.toString (JS.randomInt 100000 900000 r)).
  split; [reflexivity|]. rewrite toString_6 by lia.
  pose proof (numeric_digits6 (JS.randomInt 100000 900000 r) ltac:(lia)) as [? ?].
  repeat split; try reflexivity; assumption.
Qed.

Lemma ceil_minutes a :
  JS.ceil (inject_Z a / inject_Z (1000 * 60))%Q = (a + 59999) / 60000.
Proof.
  unfold JS.ceil, Qceiling, Qfloor, Qdiv, Qinv, Qmult, Qopp, inject_Z. simpl.
  rewrite Z.mul_1_r. divlia.
Qed.

Lemma save_valid id b db :
  validate b = true -> save id b db = Return (<[id := b]> db).
Proof. intros H. unfold save. rewrite H. reflexivity. Qed.

(** C6 fails on the code.  The create route admits the time text 9:00, an
    hour of one digit, and stores a confirmed booking that is not checked in.
    The check-in handler builds the text 2030-01-15T9:00 from it, which is an
    Invalid Date; both comparisons with the window are then false, and the
    check-in succeeds at every clock reading, inside the window or not. *)
Theorem checkin_one_digit_hour_any_time :
  oneDigitHourCreated.1 = ok 201 "Booking created successfully"
  /\ exists b,
       oneDigitHourCreated.2 !! "booking-2" = Some b
       /\ user b = "user-1" /\ status b = Confirmed /\ checkedIn b = false
       /\ appointmentDate b = 1894678200000 /\ appointmentTime b = "9:00"
       /\ appointmentDateTimeOf IST b = None
       /\ forall now checkInTime' r,
            let result :=
              checkin IST "user-1" now checkInTime' r "booking-2" oneDigitHourCreated.2 in
            result.1 = ok 200 "Check-in successful! OTP sent to your email."
            /\ (status <$> result.2 !! "booking-2") = Some InProgress
            /\ (checkInTime <$> result.2 !! "booking-2") = Some (Some checkInTime').
Proof.
  split; [vm_compute; reflexivity|].
  destruct (oneDigitHourCreated.2 !! "booking-2") as [b|] eqn:Hb;
    [|vm_compute in Hb; discriminate].
  exists b. split; [reflexivity|].
  assert (Heq : b = newBooking "user-1" oneDigitHourRequest
                      (mkTreatment sampleTreatment true [Kokapet; Kondapur])
                      (generateReference (mkCalendarDate 2030 0 10) (5678 # 10000))).
  { vm_compute in Hb. injection Hb as <-. vm_compute. reflexivity. }
  assert (Hv : validate b = true) by (rewrite Heq; reflexivity).
  assert (Hu : user b = "user-1") by (rewrite Heq; reflexivity).
  assert (Hc : checkedIn b = false) by (rewrite Heq; reflexivity).
  assert (Ha : appointmentDateTimeOf IST b = None) by (rewrite Heq; reflexivity).
  repeat (split; [rewrite Heq; reflexivity|]).
  intros now checkInTime' r result. subst result.
  unfold checkin. rewrite Hb, (owner_passes _ _ Hu), Ha, Hc.
  rewrite save_valid by valid_doc.
  cbn [saved fst snd]. rewrite lookup_insert_eq.
  repeat split; reflexivity.
Qed.

(** C5: for a booking that is checked in and not checked out, a self-checkout
    before [checkInTime] plus 20 minutes is refused with the number of
    minutes left, rounded up, and writes nothing; from that time on it
    succeeds and sets [checkedOut], [checkOutTime] (the clock reading of the
    update), the status completed, and clears [checkoutOTP]. *)
Theorem userCheckout_after_20_minutes caller now checkOutTime' id db b checkedInAt :
  db !! id = Some b ->
  user b = caller ->
  checkedIn b = true ->
  checkedOut b = false ->
  validate b = true ->
  checkInTime b = Some checkedInAt ->
  checkOutEligibleTime b = Some (checkedInAt + 20 * Clock.msPerMinute)
  \/ checkOutEligibleTime b = None ->
  let eligible := checkedInAt + 20 * Clock.msPerMinute in
  let result := userCheckout caller now checkOutTime' id db in
  (now < eligible ->
     result = (fail 400 ("Please wait " +:+ JS.toString (minutesRemaining eligible now)
                          +:+ " more minute(s) before checking out"), db)
     /\ 1 <= minutesRemaining eligible now
     /\ 60000 * (minutesRemaining eligible now - 1) < eligible - now
        <= 60000 * minutesRemaining eligible now)
  /\ (eligible <= now ->
        exists b', result = (ok 200 "Successfully checked out! Your appointment is now complete.",
                             <[id := b']> db)
          /\ checkedOut b' = true
          /\ checkOutTime b' = Some checkOutTime'
          /\ status b' = Completed
          /\ checkoutOTP b' = None).
Proof.
  intros Hb Hu Hin Hout Hv Ht He eligible result. subst eligible result.
  unfold userCheckout. rewrite Hb, (owner_passes _ _ Hu), Hin, Hout. cbn [negb].
  change Clock.msPerMinute with 60000.
  assert (Hel : eligibleTime b = Return (checkedInAt + 20 * 60000)).
  { unfold eligibleTime. destruct He as [-> | ->]; [reflexivity|]. rewrite Ht. reflexivity. }
  rewrite Hel. split.
  - intros Hlt. destruct (Z.ltb_spec now (checkedInAt + 20 * 60000)); [|lia].
    rewrite ceil_minutes. unfold minutesRemaining.
    split; [reflexivity|]. divlia.
  - intros Hge. destruct (Z.ltb_spec now (checkedInAt + 20 * 60000)); [lia|].
    rewrite save_valid by valid_doc. eexists. split; [reflexivity|]. auto.
Qed.

(** C4: for a booking that is checked in and not checked out, a staff
    checkout with an OTP other than the stored one fails and writes nothing;
    with the stored OTP it succeeds, sets [checkedOut] and the status
    completed and clears [checkoutOTP], and the same request sent again
    fails. *)
Theorem checkout_needs_the_otp now id otp adminId db b :
  db !! id = Some b ->
  checkedIn b = true ->
  checkedOut b = false ->
  let result := checkout now id otp adminId db in
  (checkoutOTP b <> Some otp ->
     success result.1 = false /\ result.2 = db /\ (checkedOut <$> result.2 !! id) = Some false)
  /\ (checkoutOTP b = Some otp ->
      validate b = true -> String.length otp = 6%nat -> adminId <> "" ->
      exists b', result = (ok 200 "Patient checked out successfully!", <[id := b']> db)
        /\ checkedOut b' = true
        /\ checkOutTime b' = Some now
        /\ status b' = Completed
        /\ checkoutOTP b' = None
        /\ forall now', success (checkout now' id otp adminId result.2).1 = false
                        /\ (checkout now' id otp adminId result.2).2 = result.2).
Proof.
  intros Hb Hin Hout result. subst result. unfold checkout. split.
  - intros Hne. destruct (negb (lengthBetween 6 6 otp && _)).
    + cbn [fst snd success fail]. rewrite Hb. cbn [fmap option_fmap option_map]. rewrite Hout. auto.
    + rewrite Hb, Hin, Hout. cbn [negb]. rewrite bool_decide_eq_false_2 by assumption.
      cbn [negb fst snd success fail]. rewrite Hb. cbn [fmap option_fmap option_map].
      rewrite Hout. auto.
  - intros Hotp Hv Hlen Hadmin.
    assert (Hreq : negb (lengthBetween 6 6 otp && negb (String.eqb adminId "")) = false).
    { unfold lengthBetween. rewrite Hlen. cbn.
      destruct (String.eqb_spec adminId ""); [contradiction | reflexivity]. }
    rewrite Hreq, Hb, Hin, Hout. cbn [negb].
    rewrite bool_decide_eq_true_2 by assumption. cbn [negb].
    rewrite save_valid by valid_doc. eexists. split; [reflexivity|].
    repeat split; try reflexivity; cbn [fst snd saved];
      rewrite lookup_insert_eq;
      cbn [checkedIn checkedOut set_checkoutOTP set_adminCheckout set_status
           set_checkOutTime set_checkedOut];
      rewrite Hin; reflexivity.
Qed.

(** ** Lifecycle: reschedule *)

(** C8 (as amended): a reschedule that succeeds (caller owns the booking, the
    new date is not in the past, status neither completed nor cancelled,
    [rescheduleCount] below 1) snapshots the prior date and time into
    [rescheduledFrom], overwrites [appointmentDate] and [appointmentTime],
    increments [rescheduleCount], stamps [rescheduledAt] and leaves the
    booking in status rescheduled. *)
Theorem reschedule_success caller now now2 id newDate newTime db b :
  db !! id = Some b ->
  user b = caller ->
  now <= newDate ->
  status b <> Completed -> status b <> Cancelled ->
  rescheduleCount b < 1 ->
  validate b = true ->
  exists b',
    reschedule caller now now2 id (Some newDate) newTime db
    = (ok 200 "Booking rescheduled successfully", <[id := b']> db)
    /\ rescheduledFrom b' = Some (appointmentDate b, appointmentTime b)
    /\ appointmentDate b' = newDate
    /\ appointmentTime b' = newTime
    /\ rescheduleCount b' = rescheduleCount b + 1
    /\ rescheduledAt b' = Some now2
    /\ status b' = Rescheduled.
Proof.
  intros Hb Hu Hd Hs1 Hs2 Hc Hv.
  unfold reschedule, rescheduleBooking. rewrite Hb, (owner_passes _ _ Hu).
  destruct (Z.ltb_spec newDate now); [lia|].
  rewrite bool_decide_eq_false_2
    by (rewrite !elem_of_cons, elem_of_nil; intuition congruence).
  destruct (Z.geb_spec (rescheduleCount b) 1); [lia|].
  rewrite save_valid by valid_doc. eexists. split; [reflexivity|]. auto 10.
Qed.


(** *** Properties kept by every operation *)

Section Preservation.
Context (P : string -> Booking -> Prop).

Lemma saved_Forall onOk onThrow id b (db : gmap string Booking) :
  map_Forall P db -> P id b -> map_Forall P (saved onOk onThrow (save id b db) db).2.
Proof.
  intros Hdb Hb. unfold save. destruct (validate b); cbn [saved snd]; [|assumption].
  apply map_Forall_insert_2; assumption.
Qed.

Lemma save_Forall id b (db db' : gmap string Booking) :
  map_Forall P db -> P id b -> save id b db = Return db' -> map_Forall P db'.
Proof.
  intros Hdb Hb. unfold save. destruct (validate b); [|discriminate].
  intros [= <-]. apply map_Forall_insert_2; assumption.
Qed.

Lemma delete_Forall id (db : gmap string Booking) :
  map_Forall P db -> map_Forall P (delete id db).
Proof. intros Hdb. apply map_Forall_delete. assumption. Qed.
End Preservation.

(** Opens a handler: every test it makes becomes a case. *)
Ltac handler_cases :=
  repeat (case_match; cbn [fst snd saved]);
  try assumption.

Ltac once_only :=
  match goal with
  | Hdb : map_Forall onceOnly ?db, Hb : ?db !! ?id = Some ?b |- _ =>
      pose proof (map_Forall_lookup_1 _ _ _ _ Hdb Hb) as Hcount;
      unfold onceOnly in Hcount |- *; cbn; lia
  end.

Ltac save_once_only := apply saved_Forall; [assumption | once_only].

Lemma bulkUpdateOne_onceOnly action data now bookingId db :
  map_Forall onceOnly db -> map_Forall onceOnly (bulkUpdateOne action data now bookingId db).2.
Proof.
  intros Hdb. unfold bulkUpdateOne, cancelBooking, markAsNoShow, rescheduleBooking.
  handler_cases;
    match goal with
    | H : save _ _ _ = Return _ |- _ =>
        eapply save_Forall; [exact Hdb | | exact H]; once_only
    | H : Throw _ = Return _ |- _ => discriminate H
    end.
Qed.

Lemma bulkUpdateLoop_onceOnly action data now bookingIds db :
  map_Forall onceOnly db -> map_Forall onceOnly (bulkUpdateLoop action data now bookingIds db).2.
Proof.
  revert db. induction bookingIds as [|bookingId rest IH]; intros db Hdb; [exact Hdb|].
  cbn [bulkUpdateLoop].
  pose proof (bulkUpdateOne_onceOnly action data now bookingId db Hdb) as H1.
  destruct (bulkUpdateOne action data now bookingId db) as [entry db1]. cbn [snd] in H1.
  specialize (IH db1 H1).
  destruct (bulkUpdateLoop action data now rest db1) as [results db2]. exact IH.
Qed.

Lemma remindOne_onceOnly emailOk kind now bookingId db :
  map_Forall onceOnly db -> map_Forall onceOnly (remindOne emailOk kind now bookingId db).
Proof.
  intros Hdb. unfold remindOne. handler_cases;
    (eapply save_Forall; [exact Hdb | | eassumption]; once_only).
Qed.

Lemma sendReminders_onceOnly emailOk kind now bookingIds db :
  map_Forall onceOnly db -> map_Forall onceOnly (sendReminders emailOk kind now bookingIds db).
Proof.
  unfold sendReminders. revert db.
  induction bookingIds as [|bookingId rest IH]; intros db Hdb; [exact Hdb|].
  cbn [foldl]. apply IH. apply remindOne_onceOnly. exact Hdb.
Qed.

Lemma run_onceOnly op db : map_Forall onceOnly db -> map_Forall onceOnly (run op db).
Proof.
  intros Hdb. destruct op; cbn [run].
  - unfold getBookingById. handler_cases. save_once_only.
  - unfold createBooking, saveNew, preSave. handler_cases.
    apply map_Forall_insert_2; [|assumption]. unfold onceOnly. cbn. lia.
  - unfold updateBookingStatus, cancelBooking. handler_cases; save_once_only.
  - unfold reschedule, rescheduleBooking. handler_cases. save_once_only.
  - unfold addFeedbackRoute, addFeedback. handler_cases. save_once_only.
  - unfold cancel. handler_cases. save_once_only.
  - unfold rate. handler_cases. save_once_only.
  - unfold checkin. handler_cases; save_once_only.
  - unfold userCheckout. handler_cases. save_once_only.
  - unfold checkout. handler_cases. save_once_only.
  - unfold deleteBooking. handler_cases. apply delete_Forall. assumption.
  - unfold markNoShows, markNoShowAppointments. cbn [snd].
    apply map_Forall_fmap. eapply map_Forall_impl; [exact Hdb|].
    intros k b Hb. unfold onceOnly in *. cbn. destruct (noShowFilter _ b); exact Hb.
  - unfold adminUpdateStatus, cancelBooking, markAsNoShow, completeBooking.
    handler_cases; save_once_only.
  - unfold adminBulkUpdate. destruct bookingIds as [|i rest]; [exact Hdb|].
    pose proof (bulkUpdateLoop_onceOnly action data now (i :: rest) db Hdb) as H.
    destruct (bulkUpdateLoop action data now (i :: rest) db). exact H.
  - unfold adminUpdatePayment. handler_cases; save_once_only.
  - apply sendReminders_onceOnly. exact Hdb.
Qed.

Lemma runAll_Forall (P : string -> Booking -> Prop) :
  (forall op db, map_Forall P db -> map_Forall P (run op db)) ->
  forall ops db, map_Forall P db -> map_Forall P (runAll ops db).
Proof.
  intros Hrun ops. unfold runAll.
  induction ops as [|op ops IH]; intros db Hdb; [exact Hdb|].
  cbn [foldl]. apply IH, Hrun, Hdb.
Qed.

(** C2: [rescheduleCount] never exceeds 1, whatever operations run on the
    collection; a reschedule request for a booking whose count is already 1
    or more fails with a 4xx rejection and writes nothing, so the date and
    time stay; the model method throws the reschedule-once error, and the
    route answers with that rejection whenever the request gets as far as
    the limit check (the caller owns the booking, the new date is not past,
    the status is neither completed nor cancelled). *)
Theorem rescheduleCount_never_exceeds_one caller now now2 id newDate newTime db b :
  db !! id = Some b ->
  1 <= rescheduleCount b ->
  let result := reschedule caller now now2 id newDate newTime db in
  (forall ops id' b', runAll ops ∅ !! id' = Some b' -> rescheduleCount b' <= 1)
  /\ (forall op, map_Forall onceOnly db -> map_Forall onceOnly (run op db))
  /\ success result.1 = false
  /\ (code result.1 = 400 \/ code result.1 = 403)
  /\ result.2 = db
  /\ (appointmentDate <$> result.2 !! id) = Some (appointmentDate b)
  /\ (appointmentTime <$> result.2 !! id) = Some (appointmentTime b)
  /\ rescheduleBooking newDate newTime now2 id b db
     = Throw "Appointment can only be rescheduled once"
  /\ (user b = caller ->
      (forall d, newDate = Some d -> now <= d) ->
      status b <> Completed -> status b <> Cancelled ->
      result.1 = fail 400 "Appointment can only be rescheduled once").
Proof.
  intros Hb Hc result.
  split.
  { intros ops id' b' Hl.
    exact (map_Forall_lookup_1 _ _ _ _
             (runAll_Forall _ run_onceOnly ops ∅ (map_Forall_empty _)) Hl). }
  split; [intros op; apply run_onceOnly|].
  assert (Hge : (rescheduleCount b >=? 1) = true) by lia.
  assert (Hres : success result.1 = false /\ (code result.1 = 400 \/ code result.1 = 403)
                 /\ result.2 = db).
  { subst result. unfold reschedule. rewrite Hb, Hge. handler_cases; cbn; auto. }
  destruct Hres as (H1 & H2 & H3).
  repeat split; try assumption.
  - rewrite H3, Hb. reflexivity.
  - rewrite H3, Hb. reflexivity.
  - unfold rescheduleBooking. rewrite Hge. reflexivity.
  - intros Hu Hd Hs1 Hs2. subst result. unfold reschedule.
    rewrite Hb, (owner_passes _ _ Hu), Hge.
    rewrite bool_decide_eq_false_2
      by (rewrite !elem_of_cons, elem_of_nil; intuition congruence).
    destruct newDate as [d|]; [|reflexivity].
    specialize (Hd d eq_refl). destruct (Z.ltb_spec d now); [lia | reflexivity].
Qed.

(** ** Lifecycle: terminal states *)

Ltac status_kept :=
  match goal with
  | Hdb : map_Forall (statusKept ?id ?s) ?db, Hb : ?db !! ?k = Some ?b |- _ =>
      pose proof (map_Forall_lookup_1 _ _ _ _ Hdb Hb) as Hkept;
      unfold statusKept in Hkept |- *; cbn; intros Hk; specialize (Hkept Hk)
  end.

Ltac save_status_kept tac :=
  apply saved_Forall; [assumption | status_kept; tac].

Lemma sendReminders_statusKept id s emailOk kind now bookingIds db :
  map_Forall (statusKept id s) db ->
  map_Forall (statusKept id s) (sendReminders emailOk kind now bookingIds db).
Proof.
  unfold sendReminders. revert db.
  induction bookingIds as [|bookingId rest IH]; intros db Hdb; [exact Hdb|].
  cbn [foldl]. apply IH. unfold remindOne. handler_cases;
    (eapply save_Forall; [exact Hdb | | eassumption]; status_kept; exact Hkept).
Qed.

Ltac by_terminal Hterm :=
  subst; destruct Hterm as [Ht | [Ht | Ht]];
  repeat match goal with
         | H : status ?b = _ |- _ => rewrite H in *; clear H
         | H : _ = status ?b |- _ => rewrite <- H in *; clear H
         end;
  try discriminate; try reflexivity;
  repeat match goal with
         | H : context [bool_decide _] |- _ => vm_compute in H; try discriminate H; clear H
         end.

Lemma run_statusKept op db id s :
  terminal s -> keepsTerminal op s = true -> is_Some (db !! id) ->
  map_Forall (statusKept id s) db -> map_Forall (statusKept id s) (run op db).
Proof.
  intros Hterm Hop Hid Hdb. destruct op; cbn [keepsTerminal] in Hop; try discriminate Hop;
    cbn [run].
  - unfold getBookingById. handler_cases. save_status_kept ltac:(exact Hkept).
  - unfold createBooking, saveNew, preSave. handler_cases.
    apply map_Forall_insert_2; [|assumption].
    match goal with
    | H : _ || _ = false |- _ =>
        apply orb_false_iff in H as [_ H]; apply bool_decide_eq_false in H
    end.
    intros ->. contradiction.
  - unfold reschedule, rescheduleBooking. handler_cases.
    save_status_kept idtac. by_terminal Hterm.
  - unfold addFeedbackRoute, addFeedback. handler_cases. save_status_kept ltac:(exact Hkept).
  - unfold cancel. handler_cases. save_status_kept idtac. by_terminal Hterm.
  - unfold rate. handler_cases. save_status_kept ltac:(exact Hkept).
  - unfold deleteBooking. handler_cases. apply delete_Forall. assumption.
  - unfold markNoShows, markNoShowAppointments. cbn [snd].
    apply map_Forall_fmap. eapply map_Forall_impl; [exact Hdb|].
    intros k b Hb. unfold statusKept in *. cbn. intros Hk. specialize (Hb Hk).
    unfold noShowFilter. destruct (bool_decide (status b = Confirmed)) eqn:E.
    + apply bool_decide_eq_true in E. rewrite E in Hb. subst s.
      destruct Hterm as [? | [? | ?]]; discriminate.
    + exact Hb.
  - unfold adminUpdatePayment. handler_cases; save_status_kept ltac:(exact Hkept).
  - apply sendReminders_statusKept. exact Hdb.
Qed.

(** Feedback and rating are for completed bookings only. *)
Lemma feedback_needs_completed caller now id r fb comment db b :
  db !! id = Some b -> status b <> Completed ->
  (addFeedbackRoute caller now id r fb db).2 = db /\ (rate caller id r comment db).2 = db.
Proof.
  intros Hb Hs. unfold addFeedbackRoute, rate. rewrite Hb.
  rewrite bool_decide_eq_false_2 by assumption. split; handler_cases; first [reflexivity | discriminate].
Qed.

(** [PATCH /:id/status] stores whatever status of the schema it is asked
    for, whatever the current one. *)
Lemma updateBookingStatus_overrides caller now id newStatus db b :
  db !! id = Some b -> user b = caller -> validate b = true ->
  newStatus ∈ [Confirmed; InProgress; Completed; Rescheduled] ->
  (status <$> (updateBookingStatus caller now id newStatus None db).2 !! id) = Some newStatus.
Proof.
  intros Hb Hu Hv Hs. unfold updateBookingStatus.
  rewrite Hb, (owner_passes _ _ Hu).
  assert (Hval : validate (set_status newStatus b) = true).
  { apply (validate_with b); [exact Hv | | reflexivity].
    rewrite !elem_of_cons, elem_of_nil in Hs. cbn.
    destruct Hs as [-> | [-> | [-> | [-> | []]]]]; reflexivity. }
  rewrite !elem_of_cons, elem_of_nil in Hs.
  destruct Hs as [-> | [-> | [-> | [-> | []]]]];
    repeat case_match;
    repeat match goal with
           | H : context [bool_decide _] |- _ => vm_compute in H; try discriminate H; clear H
           end;
    rewrite (save_valid _ _ _ Hval); cbn [saved snd];
    rewrite lookup_insert_eq; reflexivity.
Qed.

(** C3 (as amended): the status of a terminal booking is left as it is by
    get-by-id, booking creation, feedback, rating, [PUT /:id/cancel], delete,
    the no-show sweep, the payment update and the reminders, and by a
    reschedule unless the status is no-show; feedback and rating are refused
    unless the status is completed; [PATCH /:id/status] by the owner stores
    the status it is asked for, among confirmed, in-progress, completed and
    rescheduled, whatever the current one. *)
Theorem terminal_status_kept op db id b :
  db !! id = Some b ->
  terminal (status b) ->
  (keepsTerminal op (status b) = true ->
     forall b', run op db !! id = Some b' -> status b' = status b)
  /\ (status b <> Completed ->
      forall caller now r fb comment,
        (addFeedbackRoute caller now id r fb db).2 = db
        /\ (rate caller id r comment db).2 = db)
  /\ (validate b = true ->
      forall now newStatus,
        newStatus ∈ [Confirmed; InProgress; Completed; Rescheduled] ->
        (status <$> (updateBookingStatus (user b) now id newStatus None db).2 !! id)
        = Some newStatus).
Proof.
  intros Hb Hterm. split; [|split].
  - intros Hop b' Hb'.
    assert (Hdb : map_Forall (statusKept id (status b)) db).
    { intros k b0 Hk Heq. subst k. congruence. }
    pose proof (run_statusKept op db id (status b) Hterm Hop (mk_is_Some _ _ Hb) Hdb) as Hrun.
    exact (map_Forall_lookup_1 _ _ _ _ Hrun Hb' eq_refl).
  - intros Hs caller now r fb comment. eapply feedback_needs_completed; eassumption.
  - intros Hv now newStatus Hs.
    apply updateBookingStatus_overrides with (b := b); auto.
Qed.

(** ** The write of [GET /:id] *)

Lemma sameButCanCheckOut_set v b : sameButCanCheckOut b (set_canCheckOut v b).
Proof. unfold sameButCanCheckOut. cbn. repeat split. Qed.

Lemma sameButCanCheckOut_refl b : sameButCanCheckOut b b.
Proof. unfold sameButCanCheckOut. repeat split. Qed.

Lemma getBookingById_effect caller now id db :
  (getBookingById caller now id db).2 = db
  \/ exists b, db !! id = Some b
       /\ (getBookingById caller now id db).2 = <[id := set_canCheckOut true b]> db.
Proof.
  unfold getBookingById, saved, save. handler_cases; simplify_eq; cbn [snd]; eauto.
Qed.

(** C10: reading a booking by id writes: for a booking the caller owns that
    is checked in, not checked out and eligible for checkout at or before
    now, it stores [canCheckOut = true]; and whatever the request, no
    document is added or removed and every stored document is as before in
    every path other than [canCheckOut]. *)
Theorem getBookingById_writes_canCheckOut caller now id db :
  let result := getBookingById caller now id db in
  (forall b eligible,
      db !! id = Some b -> user b = caller ->
      checkedIn b = true -> checkedOut b = false ->
      validate b = true ->
      checkOutEligibleTime b = Some eligible -> eligible <= now ->
      success result.1 = true
      /\ result.2 !! id = Some (set_canCheckOut true b)
      /\ (canCheckOut <$> result.2 !! id) = Some true)
  /\ (forall id' b', result.2 !! id' = Some b' ->
        exists b, db !! id' = Some b /\ sameButCanCheckOut b b')
  /\ (forall id', result.2 !! id' = None <-> db !! id' = None).
Proof.
  intros result. subst result. split; [|split].
  - intros b eligible Hb Hu Hin Hout Hv He Hle.
    unfold getBookingById, eligibleTime.
    rewrite Hb, (owner_passes _ _ Hu), Hin, Hout, He. cbn [negb andb].
    destruct (Z.geb_spec now eligible); [|lia].
    rewrite save_valid by valid_doc. cbn [saved fst snd].
    rewrite lookup_insert_eq. auto.
  - intros id' b' Hl.
    destruct (getBookingById_effect caller now id db) as [Heq | (b & Hb & Heq)];
      rewrite Heq in Hl.
    + exists b'. split; [assumption | apply sameButCanCheckOut_refl].
    + destruct (decide (id = id')) as [<- | Hne].
      * rewrite lookup_insert_eq in Hl. injection Hl as <-.
        exists b. split; [assumption | apply sameButCanCheckOut_set].
      * rewrite lookup_insert_ne in Hl by assumption.
        exists b'. split; [assumption | apply sameButCanCheckOut_refl].
  - intros id'.
    destruct (getBookingById_effect caller now id db) as [Heq | (b & Hb & Heq)];
      rewrite Heq; [tauto|].
    destruct (decide (id = id')) as [<- | Hne].
    + rewrite lookup_insert_eq, Hb. split; discriminate.
    + rewrite lookup_insert_ne by assumption. tauto.
Qed.

(** ** Shape of a checked-in booking *)

Ltac checkin_shape :=
  match goal with
  | Hdb : map_Forall checkedInShape ?db, Hb : ?db !! ?id = Some ?b |- _ =>
      pose proof (map_Forall_lookup_1 _ _ _ _ Hdb Hb) as Hshape;
      unfold checkedInShape in Hshape |- *; cbn; first [exact Hshape | eauto]
  end.

Ltac save_checkin_shape := apply saved_Forall; [assumption | checkin_shape].

Lemma bulkUpdateOne_checkedInShape action data now bookingId db :
  map_Forall checkedInShape db ->
  map_Forall checkedInShape (bulkUpdateOne action data now bookingId db).2.
Proof.
  intros Hdb. unfold bulkUpdateOne, cancelBooking, markAsNoShow, rescheduleBooking.
  handler_cases;
    match goal with
    | H : save _ _ _ = Return _ |- _ =>
        eapply save_Forall; [exact Hdb | | exact H]; checkin_shape
    | H : Throw _ = Return _ |- _ => discriminate H
    end.
Qed.

Lemma bulkUpdateLoop_checkedInShape action data now bookingIds db :
  map_Forall checkedInShape db ->
  map_Forall checkedInShape (bulkUpdateLoop action data now bookingIds db).2.
Proof.
  revert db. induction bookingIds as [|bookingId rest IH]; intros db Hdb; [exact Hdb|].
  cbn [bulkUpdateLoop].
  pose proof (bulkUpdateOne_checkedInShape action data now bookingId db Hdb) as H1.
  destruct (bulkUpdateOne action data now bookingId db) as [entry db1]. cbn [snd] in H1.
  specialize (IH db1 H1).
  destruct (bulkUpdateLoop action data now rest db1) as [results db2]. exact IH.
Qed.

Lemma sendReminders_checkedInShape emailOk kind now bookingIds db :
  map_Forall checkedInShape db ->
  map_Forall checkedInShape (sendReminders emailOk kind now bookingIds db).
Proof.
  unfold sendReminders. revert db.
  induction bookingIds as [|bookingId rest IH]; intros db Hdb; [exact Hdb|].
  cbn [foldl]. apply IH. unfold remindOne. handler_cases;
    (eapply save_Forall; [exact Hdb | | eassumption]; checkin_shape).
Qed.

Lemma run_checkedInShape op db :
  map_Forall checkedInShape db -> map_Forall checkedInShape (run op db).
Proof.
  intros Hdb. destruct op; cbn [run].
  - unfold getBookingById. handler_cases. save_checkin_shape.
  - unfold createBooking, saveNew, preSave. handler_cases.
    apply map_Forall_insert_2; [|assumption]. unfold checkedInShape. cbn. discriminate.
  - unfold updateBookingStatus, cancelBooking. handler_cases; save_checkin_shape.
  - unfold reschedule, rescheduleBooking. handler_cases. save_checkin_shape.
  - unfold addFeedbackRoute, addFeedback. handler_cases. save_checkin_shape.
  - unfold cancel. handler_cases. save_checkin_shape.
  - unfold rate. handler_cases. save_checkin_shape.
  - unfold checkin. handler_cases; save_checkin_shape.
  - unfold userCheckout. handler_cases. save_checkin_shape.
  - unfold checkout. handler_cases. save_checkin_shape.
  - unfold deleteBooking. handler_cases. apply delete_Forall. assumption.
  - unfold markNoShows, markNoShowAppointments. cbn [snd].
    apply map_Forall_fmap. eapply map_Forall_impl; [exact Hdb|].
    intros k b Hb. unfold checkedInShape in *. cbn. destruct (noShowFilter _ b); exact Hb.
  - unfold adminUpdateStatus, cancelBooking, markAsNoShow, completeBooking.
    handler_cases; save_checkin_shape.
  - unfold adminBulkUpdate. destruct bookingIds as [|i rest]; [exact Hdb|].
    pose proof (bulkUpdateLoop_checkedInShape action data now (i :: rest) db Hdb) as H.
    destruct (bulkUpdateLoop action data now (i :: rest) db). exact H.
  - unfold adminUpdatePayment. handler_cases; save_checkin_shape.
  - apply sendReminders_checkedInShape. exact Hdb.
Qed.

(** Every booking that the operations can produce from an empty collection
    and that is checked in carries its check-in time and, as checkout
    eligible time, that time plus 20 minutes. *)
Lemma runAll_checkedInShape ops id b :
  runAll ops ∅ !! id = Some b -> checkedIn b = true ->
  exists t, checkInTime b = Some t
            /\ checkOutEligibleTime b = Some (t + 20 * Clock.msPerMinute).
Proof.
  intros Hb.
  exact (map_Forall_lookup_1 _ _ _ _
           (runAll_Forall _ run_checkedInShape ops ∅ (map_Forall_empty _)) Hb).
Qed.

(** ** Stored documents are valid *)

Lemma saved_schemaValid onOk onThrow id b (db : gmap string Booking) :
  map_Forall schemaValid db ->
  map_Forall schemaValid (saved onOk onThrow (save id b db) db).2.
Proof.
  intros Hdb. unfold save. destruct (validate b) eqn:Hv; cbn [saved snd]; [|assumption].
  apply map_Forall_insert_2; assumption.
Qed.

Lemma save_schemaValid id b (db db' : gmap string Booking) :
  map_Forall schemaValid db -> save id b db = Return db' -> map_Forall schemaValid db'.
Proof.
  intros Hdb. unfold save. destruct (validate b) eqn:Hv; [|discriminate].
  intros [= <-]. apply map_Forall_insert_2; assumption.
Qed.

Lemma bulkUpdateOne_schemaValid action data now bookingId db :
  map_Forall schemaValid db ->
  map_Forall schemaValid (bulkUpdateOne action data now bookingId db).2.
Proof.
  intros Hdb. unfold bulkUpdateOne, cancelBooking, markAsNoShow, rescheduleBooking.
  handler_cases;
    match goal with
    | H : save _ _ _ = Return _ |- _ => exact (save_schemaValid _ _ _ _ Hdb H)
    | H : Throw _ = Return _ |- _ => discriminate H
    end.
Qed.

Lemma bulkUpdateLoop_schemaValid action data now bookingIds db :
  map_Forall schemaValid db ->
  map_Forall schemaValid (bulkUpdateLoop action data now bookingIds db).2.
Proof.
  revert db. induction bookingIds as [|bookingId rest IH]; intros db Hdb; [exact Hdb|].
  cbn [bulkUpdateLoop].
  pose proof (bulkUpdateOne_schemaValid action data now bookingId db Hdb) as H1.
  destruct (bulkUpdateOne action data now bookingId db) as [entry db1]. cbn [snd] in H1.
  specialize (IH db1 H1).
  destruct (bulkUpdateLoop action data now rest db1) as [results db2]. exact IH.
Qed.

Lemma sendReminders_schemaValid emailOk kind now bookingIds db :
  map_Forall schemaValid db ->
  map_Forall schemaValid (sendReminders emailOk kind now bookingIds db).
Proof.
  unfold sendReminders. revert db.
  induction bookingIds as [|bookingId rest IH]; intros db Hdb; [exact Hdb|].
  cbn [foldl]. apply IH. unfold remindOne.
  handler_cases; eapply save_schemaValid; eassumption.
Qed.

Lemma run_schemaValid op db :
  map_Forall schemaValid db -> map_Forall schemaValid (run op db).
Proof.
  intros Hdb. destruct op; cbn [run].
  - unfold getBookingById. handler_cases. apply saved_schemaValid, Hdb.
  - unfold createBooking, saveNew, preSave. handler_cases.
    apply map_Forall_insert_2; [|assumption]. unfold schemaValid.
    match goal with H : validate ?b = true |- _ => apply (validate_same b) end;
      [assumption | reflexivity | reflexivity].
  - unfold updateBookingStatus, cancelBooking. handler_cases; apply saved_schemaValid, Hdb.
  - unfold reschedule, rescheduleBooking. handler_cases. apply saved_schemaValid, Hdb.
  - unfold addFeedbackRoute, addFeedback. handler_cases. apply saved_schemaValid, Hdb.
  - unfold cancel. handler_cases. apply saved_schemaValid, Hdb.
  - unfold rate. handler_cases. apply saved_schemaValid, Hdb.
  - unfold checkin. handler_cases; apply saved_schemaValid, Hdb.
  - unfold userCheckout. handler_cases. apply saved_schemaValid, Hdb.
  - unfold checkout. handler_cases. apply saved_schemaValid, Hdb.
  - unfold deleteBooking. handler_cases. apply delete_Forall. assumption.
  - unfold markNoShows, markNoShowAppointments. cbn [snd].
    apply map_Forall_fmap. eapply map_Forall_impl; [exact Hdb|].
    intros k b Hb. unfold schemaValid in *. cbn.
    destruct (noShowFilter _ b); [|exact Hb].
    apply (validate_with b); [exact Hb | reflexivity | reflexivity].
  - unfold adminUpdateStatus, cancelBooking, markAsNoShow, completeBooking.
    handler_cases; apply saved_schemaValid, Hdb.
  - unfold adminBulkUpdate. destruct bookingIds as [|i rest]; [exact Hdb|].
    pose proof (bulkUpdateLoop_schemaValid action data now (i :: rest) db Hdb) as H.
    destruct (bulkUpdateLoop action data now (i :: rest) db). exact H.
  - unfold adminUpdatePayment. handler_cases; apply saved_schemaValid, Hdb.
  - apply sendReminders_schemaValid. exact Hdb.
Qed.

(** Every document that the operations can produce from an empty collection
    passes the validators of the schema. *)
Lemma runAll_schemaValid ops id b : runAll ops ∅ !! id = Some b -> validate b = true.
Proof.
  intros Hb.
  exact (map_Forall_lookup_1 _ _ _ _
           (runAll_Forall _ run_schemaValid ops ∅ (map_Forall_empty _)) Hb).
Qed.

(** ** The theorems at sample data *)

Lemma sample_reference_witness :
  fourDigitYear (mkCalendarDate 2030 0 10) /\ unitInterval (1234 # 10000)
  /\ exists suffix, 1000 <= suffix <= 9999
       /\ generateReference (mkCalendarDate 2030 0 10) (1234 # 10000)
          = "ZEN" +:+ YYYYMMDD 2030 1 10 +:+ digits4 suffix.
Proof.
  assert (Hd : fourDigitYear (mkCalendarDate 2030 0 10)) by (unfold fourDigitYear; simpl; lia).
  assert (Hr : unitInterval (1234 # 10000)) by (split; vm_compute; congruence).
  split; [exact Hd|]. split; [exact Hr|].
  destruct (bookingReference_is_ZEN_date_suffix _ _ Hd Hr) as [(suffix & Hs & Heq & _) _].
  exists suffix. split; [exact Hs | exact Heq].
Defined.

Example sample_reference :
  generateReference (mkCalendarDate 2030 0 10) (1234 # 10000) = "ZEN203001102110".
Proof. reflexivity. Qed.

Lemma sample_sweep_witness :
  sampleStore !! "booking-1" = Some sampleBooking
  /\ noShowGuard 1894700000000 sampleBooking
  /\ (status <$> (markNoShowAppointments 1894700000000 sampleStore).2 !! "booking-1")
     = Some NoShow.
Proof.
  assert (Hb : sampleStore !! "booking-1" = Some sampleBooking) by reflexivity.
  assert (Hg : noShowGuard 1894700000000 sampleBooking).
  { unfold noShowGuard. split; [reflexivity | split; [vm_compute; reflexivity | discriminate]]. }
  split; [exact Hb|]. split; [exact Hg|].
  destruct (noShowSweep_exact_and_idempotent 1894700000000 sampleStore) as (Hmark & _).
  destruct (Hmark _ _ Hb) as [Hyes _]. destruct (Hyes Hg) as (-> & _). reflexivity.
Defined.

Lemma sample_availability_witness :
  getAvailability IST (Some 1894665600000) Kokapet 1894246200000 sampleStore
  = (ok 200 "Available time slots retrieved successfully", Some sampleAvailability)
  /\ "14:00" ∉ availableSlots sampleAvailability.
Proof.
  assert (H : getAvailability IST (Some 1894665600000) Kokapet 1894246200000 sampleStore
              = (ok 200 "Available time slots retrieved successfully",
                 Some sampleAvailability)) by (vm_compute; reflexivity).
  split; [exact H|].
  destruct (dayAvailability_slots _ _ _ _ _ _ _ H) as (_ & _ & Hsafe).
  apply (Hsafe "booking-1" sampleBooking).
  - reflexivity.
  - reflexivity.
  - split; vm_compute; [discriminate | reflexivity].
  - left. reflexivity.
Defined.

Lemma sample_second_reschedule_witness :
  rescheduledStore !! "booking-1" = Some rescheduledBooking
  /\ 1 <= rescheduleCount rescheduledBooking
  /\ reschedule "user-1" 1894000000000 1894000000001 "booking-1" (Some 1895000000000) "11:00"
       rescheduledStore
     = (fail 400 "Appointment can only be rescheduled once", rescheduledStore).
Proof.
  assert (Hb : rescheduledStore !! "booking-1" = Some rescheduledBooking) by reflexivity.
  assert (Hc : 1 <= rescheduleCount rescheduledBooking) by (simpl; lia).
  split; [exact Hb|]. split; [exact Hc|].
  destruct (rescheduleCount_never_exceeds_one "user-1" 1894000000000 1894000000001 "booking-1"
              (Some 1895000000000) "11:00" _ _ Hb Hc)
    as (_ & _ & _ & _ & Hdb & _ & _ & _ & Hmsg).
  apply injective_projections; [|exact Hdb].
  apply Hmsg.
  - reflexivity.
  - intros d [= <-]. lia.
  - discriminate.
  - discriminate.
Defined.

Lemma sample_terminal_witness :
  completedStore !! "booking-1" = Some completedBooking
  /\ terminal (status completedBooking)
  /\ (status <$> run (OpCancel "user-1" "booking-1") completedStore !! "booking-1")
     = Some Completed.
Proof.
  assert (Hb : completedStore !! "booking-1" = Some completedBooking) by reflexivity.
  assert (Ht : terminal (status completedBooking)) by (left; reflexivity).
  split; [exact Hb|]. split; [exact Ht|].
  destruct (run (OpCancel "user-1" "booking-1") completedStore !! "booking-1") as [b'|] eqn:Hrun;
    [|vm_compute in Hrun; discriminate Hrun].
  destruct (terminal_status_kept (OpCancel "user-1" "booking-1") _ _ _ Hb Ht) as (Hkeep & _ & _).
  change (Some (status b') = Some (status completedBooking)).
  f_equal. exact (Hkeep eq_refl b' Hrun).
Defined.

(** C3 as stated fails: [PATCH /:id/status] takes a completed booking back to
    confirmed. *)
Lemma completed_booking_reconfirmed :
  (status <$> completedStore !! "booking-1") = Some Completed
  /\ (status <$> run (OpUpdateBookingStatus "user-1" 1894700000000 "booking-1" Confirmed None)
                   completedStore !! "booking-1")
     = Some Confirmed.
Proof. split; vm_compute; reflexivity. Qed.

Lemma sample_staff_checkout_witness :
  checkedInStore !! "booking-1" = Some checkedInBooking
  /\ checkedIn checkedInBooking = true /\ checkedOut checkedInBooking = false
  /\ success (checkout 1894697000000 "booking-1" "000000" "admin-1" checkedInStore).1 = false
  /\ exists b', checkout 1894697000000 "booking-1" "482913" "admin-1" checkedInStore
                = (ok 200 "Patient checked out successfully!", <["booking-1" := b']> checkedInStore)
                /\ status b' = Completed.
Proof.
  assert (Hb : checkedInStore !! "booking-1" = Some checkedInBooking) by reflexivity.
  split; [exact Hb|]. split; [reflexivity|]. split; [reflexivity|]. split.
  - destruct (checkout_needs_the_otp 1894697000000 "booking-1" "000000" "admin-1" _ _ Hb
                eq_refl eq_refl) as [Hbad _].
    apply Hbad. discriminate.
  - destruct (checkout_needs_the_otp 1894697000000 "booking-1" "482913" "admin-1" _ _ Hb
                eq_refl eq_refl) as [_ Hgood].
    destruct (Hgood eq_refl eq_refl eq_refl ltac:(discriminate)) as (b' & Heq & _ & _ & Hs & _).
    exists b'. split; [exact Heq | exact Hs].
Defined.

Lemma sample_self_checkout_witness :
  checkedInStore !! "booking-1" = Some checkedInBooking
  /\ user checkedInBooking = "user-1"
  /\ validate checkedInBooking = true
  /\ checkInTime checkedInBooking = Some 1894695600000
  /\ userCheckout "user-1" 1894696000000 1894696000001 "booking-1" checkedInStore
     = (fail 400 "Please wait 14 more minute(s) before checking out", checkedInStore).
Proof.
  assert (Hb : checkedInStore !! "booking-1" = Some checkedInBooking) by reflexivity.
  split; [exact Hb|]. repeat (split; [reflexivity|]).
  destruct (userCheckout_after_20_minutes "user-1" 1894696000000 1894696000001 "booking-1"
              _ _ 1894695600000 Hb eq_refl eq_refl eq_refl eq_refl eq_refl
              (or_introl eq_refl)) as [Hearly _].
  destruct (Hearly ltac:(vm_compute; reflexivity)) as [Heq _]. exact Heq.
Defined.

Lemma sample_checkin_witness :
  sampleStore !! "booking-1" = Some sampleBooking
  /\ appointmentDateTimeOf IST sampleBooking = Some 1894696200000
  /\ unitInterval (1 # 2)
  /\ success (checkin IST "user-1" (1894696200000 - 15 * 60000) 1894695300001 (1 # 2)
                "booking-1" sampleStore).1 = true
  /\ success (checkin IST "user-1" (1894696200000 - 16 * 60000) 1894695300001 (1 # 2)
                "booking-1" sampleStore).1 = false.
Proof.
  assert (Hb : sampleStore !! "booking-1" = Some sampleBooking) by reflexivity.
  assert (Ha : appointmentDateTimeOf IST sampleBooking = Some 1894696200000) by reflexivity.
  assert (Hr : unitInterval (1 # 2)) by (split; vm_compute; congruence).
  split; [exact Hb|]. split; [exact Ha|]. split; [exact Hr|]. split.
  - destruct (checkin_window IST "user-1" (1894696200000 - 15 * 60000) 1894695300001 (1 # 2)
                "booking-1" _ _ _ Hb eq_refl eq_refl eq_refl eq_refl Ha Hr)
      as (_ & Hat & _).
    apply Hat. reflexivity.
  - destruct (checkin_window IST "user-1" (1894696200000 - 16 * 60000) 1894695300001 (1 # 2)
                "booking-1" _ _ _ Hb eq_refl eq_refl eq_refl eq_refl Ha Hr)
      as (_ & _ & Hbefore & _).
    apply Hbefore. reflexivity.
Defined.

Lemma sample_reschedule_witness :
  sampleStore !! "booking-1" = Some sampleBooking
  /\ rescheduleCount sampleBooking < 1
  /\ validate sampleBooking = true
  /\ exists b', (reschedule "user-1" 1894000000000 1894000000001 "booking-1"
                   (Some 1895000000000) "11:00" sampleStore).2 !! "booking-1" = Some b'
       /\ status b' = Rescheduled /\ rescheduleCount b' = 1.
Proof.
  assert (Hb : sampleStore !! "booking-1" = Some sampleBooking) by reflexivity.
  split; [exact Hb|]. split; [simpl; lia|]. split; [reflexivity|].
  destruct (reschedule_success "user-1" 1894000000000 1894000000001 "booking-1" 1895000000000
              "11:00" _ _ Hb eq_refl ltac:(lia) ltac:(discriminate) ltac:(discriminate)
              ltac:(simpl; lia) eq_refl)
    as (b' & Heq & _ & _ & _ & Hc & _ & Hs).
  exists b'. rewrite Heq. cbn [snd]. rewrite lookup_insert_eq.
  split; [reflexivity|]. split; [exact Hs | exact Hc].
Defined.

(** C8 as stated fails: a successful reschedule leaves the status
    rescheduled, not confirmed. *)
Lemma rescheduled_not_confirmed :
  success (reschedule "user-1" 1894000000000 1894000000001 "booking-1"
             (Some 1895000000000) "11:00" sampleStore).1 = true
  /\ (status <$> sampleStore !! "booking-1") = Some Confirmed
  /\ (status <$> (reschedule "user-1" 1894000000000 1894000000001 "booking-1"
                    (Some 1895000000000) "11:00" sampleStore).2 !! "booking-1")
     = Some Rescheduled
  /\ Rescheduled <> Confirmed.
Proof. repeat split; try (vm_compute; reflexivity). discriminate. Qed.

Lemma sample_getBookingById_witness :
  checkedInStore !! "booking-1" = Some checkedInBooking
  /\ checkOutEligibleTime checkedInBooking = Some 1894696800000
  /\ (canCheckOut <$> (getBookingById "user-1" 1894696800000 "booking-1" checkedInStore).2
                        !! "booking-1") = Some true.
Proof.
  assert (Hb : checkedInStore !! "booking-1" = Some checkedInBooking) by reflexivity.
  split; [exact Hb|]. split; [reflexivity|].
  destruct (getBookingById_writes_canCheckOut "user-1" 1894696800000 "booking-1" checkedInStore)
    as [Hset _].
  destruct (Hset _ 1894696800000 Hb eq_refl eq_refl eq_refl eq_refl eq_refl ltac:(lia))
    as (_ & _ & Hc).
  exact Hc.
Defined.
